(** * stmap1: the Kyushu temperature map (streamlit_app.py)

    A shallow embedding of the one source file of the repository,
    [streamlit_app.py], and the properties of its colour mapping, its
    elevation column, its retrieval loop and its time filter.

    Numbers.  A temperature is read as the rational number its decimal
    writes, and the arithmetic of the script ([+], [-], [*], [/], [abs],
    [np.clip]) as exact arithmetic on [Q]; [int(x)] is truncation toward
    zero.  Rounding to binary64, NaN and the infinities are outside this
    reading; module [B64] runs the same lines on machine floats.  What is
    stated on [Q] is what rounding leaves true (order, sign, range,
    saturation); where a value depends on rounding, the statement is a
    bound, checked on [B64] over every temperature with one decimal
    between -100.0 and 100.0.

    Collaborators.  The network ([requests.get]), the timestamp reader
    ([pd.to_datetime]) and the slider ([st.slider]) are parameters of the
    definitions that call them. *)

From Stdlib Require Import ZArith QArith Qabs Qminmax Qround.
From Stdlib Require Import String Ascii Bool Lia Lqa.
From Stdlib Require Import PrimFloat FloatOps SpecFloat.
From Stdlib Require Import List Permutation.
Import ListNotations.

Open Scope Q_scope.

(* ================================================================== *)
(** ** Python and NumPy primitives used by the script *)

(** [np.clip(x, a_min, a_max)] is [minimum(maximum(x, a_min), a_max)]. *)
Definition np_clip (x a_min a_max : Q) : Q := Qmin (Qmax x a_min) a_max.

(** [int(x)] on a float: the integer part, rounding toward zero. *)
Definition py_int (x : Q) : Z :=
  if Qle_bool 0 x then Qfloor x else Qceiling x.

(* ================================================================== *)
(** ** Lines 23-29: [temp_to_color] *)

(** The normalised temperature of line 25. *)
Definition normalize (temp : Q) : Q := np_clip ((temp + 5) / 40) 0 1.

Definition temp_to_color (temp : Q) : list Z :=
  let t := np_clip ((temp + 5) / 40) 0 1 in
  let r := py_int (255 * t) in
  let g := py_int (255 * (1 - Qabs (t - 0.5) * 2)) in
  let b := py_int (255 * (1 - t)) in
  [r; g; b; 180%Z].

(** The channels of the returned list, by position. *)
Definition channel (i : nat) (c : list Z) : Z := nth i c 0%Z.
Definition red (temp : Q) : Z := channel 0 (temp_to_color temp).
Definition green (temp : Q) : Z := channel 1 (temp_to_color temp).
Definition blue (temp : Q) : Z := channel 2 (temp_to_color temp).
Definition alpha (temp : Q) : Z := channel 3 (temp_to_color temp).

(* ================================================================== *)
(** ** Python values, exceptions and the error monad *)

(** A value built by [response.json()]. The members of [JObj] are the items
    of a Python dict in insertion order, so their keys are distinct. *)
#[warnings="-register-all"]
Inductive json : Type :=
| JNull
| JBool (b : bool)
| JNum (q : Q)
| JStr (s : string)
| JArr (items : list json)
| JObj (members : list (string * json)).

(** The exceptions the script can meet; all derive from [Exception]. *)
Inductive exn : Type :=
| ConnectionError
| HTTPError (status : Z)
| JSONDecodeError
| KeyError (key : string)
| TypeError
| ValueError
| OverflowError
| StreamlitAPIException.

Definition result (A : Type) : Type := (exn + A)%type.

Definition ret {A : Type} (a : A) : result A := inr a.
Definition raise {A : Type} (e : exn) : result A := inl e.

Definition bind {A B : Type} (m : result A) (k : A -> result B) : result B :=
  match m with
  | inl e => inl e
  | inr a => k a
  end.

Notation "'let*' x ':=' m 'in' k" := (bind m (fun x => k))
  (at level 10, x name, m at level 100, k at level 200).

(** [traverse f l]: apply [f] to the items from left to right, stopping at
    the first exception. *)
Fixpoint traverse {A B : Type} (f : A -> result B) (l : list A) : result (list B) :=
  match l with
  | [] => ret []
  | a :: l' => let* b := f a in let* bs := traverse f l' in ret (b :: bs)
  end.

Fixpoint dict_get (members : list (string * json)) (key : string) : option json :=
  match members with
  | [] => None
  | (k, v) :: rest => if String.eqb k key then Some v else dict_get rest key
  end.

(** [obj[key]] for a string key: only a dict can be indexed by a string. *)
Definition py_getitem (obj : json) (key : string) : result json :=
  match obj with
  | JObj members =>
      match dict_get members key with
      | Some v => ret v
      | None => raise (KeyError key)
      end
  | _ => raise TypeError
  end.

(** [iter(obj)]: a list gives its items, a str its characters, a dict its
    keys; None, numbers and booleans are not iterable. *)
Definition py_iter (obj : json) : result (list json) :=
  match obj with
  | JArr items => ret items
  | JStr s => ret (map (fun c => JStr (String c EmptyString)) (list_ascii_of_string s))
  | JObj members => ret (map (fun kv => JStr (fst kv)) members)
  | _ => raise TypeError
  end.

(** [zip(a, b)]: positional pairs, as many as the shorter argument has. *)
Definition py_zip (a b : json) : result (list (json * json)) :=
  let* xs := py_iter a in let* ys := py_iter b in ret (combine xs ys).

(* ================================================================== *)
(** ** The HTTP collaborator ([requests]) *)

Record Params : Type := mkParams {
  latitude : Q;
  longitude : Q;
  hourly : string;
  timezone : string;
  past_days : Z
}.

(** What [requests.get] returned: the status line and the payload as
    [response.json()] reads it ([None] when the payload is not JSON). *)
Record Response : Type := mkResponse {
  status_code : Z;
  payload : option json
}.

(** [response.raise_for_status()] raises for the 4xx and 5xx statuses. *)
Definition raise_for_status (response : Response) : result unit :=
  if ((400 <=? status_code response) && (status_code response <? 600))%Z
  then raise (HTTPError (status_code response))
  else ret tt.

Definition response_json (response : Response) : result json :=
  match payload response with
  | Some data => ret data
  | None => raise JSONDecodeError
  end.

(* ================================================================== *)
(** ** Timestamps ([pandas]) *)

(** A pandas timestamp: nanoseconds since the epoch, or NaT. *)
Inductive datetime : Type :=
| NaT
| Timestamp (ns : Z).

(** [a == b] on timestamps: NaT is equal to nothing, itself included. *)
Definition datetime_eqb (a b : datetime) : bool :=
  match a, b with
  | Timestamp x, Timestamp y => (x =? y)%Z
  | _, _ => false
  end.

(** [Series.min()] and [Series.max()] of a datetime column skip NaT and
    give NaT when nothing is left. *)
Definition series_min (s : list datetime) : datetime :=
  fold_left (fun acc d =>
               match acc, d with
               | _, NaT => acc
               | NaT, Timestamp _ => d
               | Timestamp a, Timestamp b => Timestamp (Z.min a b)
               end) s NaT.

Definition series_max (s : list datetime) : datetime :=
  fold_left (fun acc d =>
               match acc, d with
               | _, NaT => acc
               | NaT, Timestamp _ => d
               | Timestamp a, Timestamp b => Timestamp (Z.max a b)
               end) s NaT.

(* ================================================================== *)
(** ** Lines 12-20: [kyushu_capitals] *)

Module Coords.
Record t : Type := make { lat : Q; lon : Q }.
End Coords.

(** The dict literal, as its items in declaration order (the order in which
    [kyushu_capitals.items()] yields them). *)
Definition kyushu_capitals : list (string * Coords.t) :=
  [ ("Fukuoka"%string,   Coords.make 33.5904 130.4017);
    ("Saga"%string,      Coords.make 33.2494 130.2974);
    ("Nagasaki"%string,  Coords.make 32.7450 129.8739);
    ("Kumamoto"%string,  Coords.make 32.7900 130.7420);
    ("Oita"%string,      Coords.make 33.2381 131.6119);
    ("Miyazaki"%string,  Coords.make 31.9110 131.4240);
    ("Kagoshima"%string, Coords.make 31.5600 130.5580) ].

(* ================================================================== *)
(** ** Lines 33-65: [fetch_weather_data] *)

(** One dict appended to [weather_info] on lines 54-60. *)
Record Row : Type := mkRow {
  City : string;
  lat : Q;
  lon : Q;
  time : datetime;
  Temperature : json
}.

(** One call of [st.error] on line 63: the city and the exception that the
    message [f"Error fetching {city}: {e}"] interpolates. *)
Record Message : Type := mkMessage {
  msg_city : string;
  msg_exn : exn
}.

(** The two things the loop changes: the list it appends to and the
    messages it has shown. *)
Record State : Type := mkState {
  weather_info : list Row;
  st_errors : list Message
}.

Definition BASE_URL : string := "https://api.open-meteo.com/v1/forecast".

(** Lines 38-44: the query of one location. *)
Definition params_of (coords : Coords.t) : Params :=
  {| latitude := Coords.lat coords;
     longitude := Coords.lon coords;
     hourly := "temperature_2m";
     timezone := "Asia/Tokyo";
     past_days := 1 |}.

Section Retrieval.

(** The network, as [requests.get] sees it, and [pd.to_datetime] on one
    item of the [time] array. *)
Variable requests_get : string -> Params -> result Response.
Variable to_datetime : json -> result datetime.

(** Lines 38-53, up to the creation of the [zip]: nothing is appended
    before the loop starts. *)
Definition request_series (coords : Coords.t) : result (list (json * json)) :=
  let params := params_of coords in
  let* response := requests_get BASE_URL params in
  let* _ := raise_for_status response in
  let* data := response_json response in
  let* h1 := py_getitem data "hourly" in
  let* times := py_getitem h1 "time" in
  let* h2 := py_getitem data "hourly" in
  let* temps := py_getitem h2 "temperature_2m" in
  py_zip times temps.

(** Lines 53-60: the loop over the pairs. Each turn appends to the shared
    list before the next timestamp is parsed, so an exception leaves the
    rows appended so far in place. *)
Fixpoint append_rows (city : string) (coords : Coords.t)
         (pairs : list (json * json)) (weather_info : list Row)
  : list Row * option exn :=
  match pairs with
  | [] => (weather_info, None)
  | (t, temp) :: rest =>
      match to_datetime t with
      | inl e => (weather_info, Some e)
      | inr d =>
          append_rows city coords rest
            (weather_info ++
               [ {| City := city;
                    lat := Coords.lat coords;
                    lon := Coords.lon coords;
                    time := d;
                    Temperature := temp |} ])
      end
  end.

(** Lines 37-63: one turn of the outer loop, [try] and [except] included. *)
Definition fetch_city (st : State) (entry : string * Coords.t) : State :=
  let (city, coords) := entry in
  match request_series coords with
  | inl e =>
      {| weather_info := weather_info st;
         st_errors := st_errors st ++ [ {| msg_city := city; msg_exn := e |} ] |}
  | inr pairs =>
      match append_rows city coords pairs (weather_info st) with
      | (rows, None) =>
          {| weather_info := rows; st_errors := st_errors st |}
      | (rows, Some e) =>
          {| weather_info := rows;
             st_errors := st_errors st ++ [ {| msg_city := city; msg_exn := e |} ] |}
      end
  end.

(** The outer loop over any table of locations. *)
Definition fetch_over (capitals : list (string * Coords.t)) : State :=
  fold_left fetch_city capitals {| weather_info := []; st_errors := [] |}.

(** [fetch_weather_data()]: the rows handed to [pd.DataFrame] and the
    messages shown on the way. It has no exceptional result. *)
Definition fetch_weather_data : State := fetch_over kyushu_capitals.

(** What one turn of the outer loop adds to the list and to the messages,
    read off [fetch_city]; the statements below are written with them. *)
Definition city_rows (entry : string * Coords.t) : list Row :=
  match request_series (snd entry) with
  | inl _ => []
  | inr pairs => fst (append_rows (fst entry) (snd entry) pairs [])
  end.

Definition city_messages (entry : string * Coords.t) : list Message :=
  match request_series (snd entry) with
  | inl e => [ {| msg_city := fst entry; msg_exn := e |} ]
  | inr pairs =>
      match snd (append_rows (fst entry) (snd entry) pairs []) with
      | Some e => [ {| msg_city := fst entry; msg_exn := e |} ]
      | None => []
      end
  end.

End Retrieval.

(** The rows a location yields when every paired timestamp is read. *)
Definition rows_of (city : string) (coords : Coords.t)
           (stamps : list datetime) (temps : list json) : list Row :=
  map (fun p => {| City := city;
                   lat := Coords.lat coords;
                   lon := Coords.lon coords;
                   time := fst p;
                   Temperature := snd p |}) (combine stamps temps).

(** A response that [fetch_weather_data] accepts: a status that
    [raise_for_status] lets through and a JSON payload whose [hourly]
    member holds the arrays [times] and [temps]. *)
Definition hourly_series (response : Response) (times temps : list json) : Prop :=
  raise_for_status response = ret tt /\
  exists data h,
    payload response = Some data /\
    py_getitem data "hourly" = ret h /\
    py_getitem h "time" = ret (JArr times) /\
    py_getitem h "temperature_2m" = ret (JArr temps).

(** Every location of the table is answered with the same [time] array
    and with as many temperatures as it has timestamps. *)
Definition common_grid (requests_get : string -> Params -> result Response)
           (times : list json) (capitals : list (string * Coords.t)) : Prop :=
  forall city coords, In (city, coords) capitals ->
    exists response temps,
      requests_get BASE_URL (params_of coords) = inr response /\
      hourly_series response times temps /\
      length temps = length times.

(** The rows of the Dataset that belong to [city]. *)
Definition rows_of_city (city : string) (df : list Row) : list Row :=
  filter (fun r => String.eqb (City r) city) df.

(* ================================================================== *)
(** ** Lines 69-89: the script after the retrieval *)

(** [pd.DataFrame(weather_info)] is held as the list of its rows. Its
    columns are the keys of the dicts, so a frame built from an empty list
    has no column at all. *)
Definition DataFrame : Type := list Row.

Definition columns (df : DataFrame) : list string :=
  match df with
  | [] => []
  | _ :: _ => ["City"; "lat"; "lon"; "time"; "Temperature"]%string
  end.

Definition has_column (df : DataFrame) (name : string) : bool :=
  existsb (String.eqb name) (columns df).

(** [df['Temperature']] and [df['time']]: KeyError when the column is
    missing. *)
Definition getitem_Temperature (df : DataFrame) : result (list json) :=
  if has_column df "Temperature" then ret (map Temperature df)
  else raise (KeyError "Temperature").

Definition getitem_time (df : DataFrame) : result (list datetime) :=
  if has_column df "time" then ret (map time df)
  else raise (KeyError "time").

(** The largest binary64 number, [(2^53 - 1) * 2^971]. *)
Definition max_float : Q :=
  Eval vm_compute in inject_Z ((2 ^ 53 - 1) * 2 ^ 971).

(** A cell of the Temperature column as lines 72-73 compute with it. A
    number is itself; a boolean counts as 1 or 0, as in Python; a null
    next to numbers is NaN, on which [int] raises ValueError; a string, a
    list or a dict ends in TypeError on one of the two lines. A number
    beyond the binary64 range is reported as OverflowError, which is how
    an integer literal of that size ends on line 25 (one written with an
    exponent is read as an infinity instead; the two are not told apart
    here). A column that holds nulls only raises TypeError on line 72
    rather than ValueError on line 73. The statements below use that
    these cells make the lines raise, never which exception it is. *)
Definition as_float (v : json) : result Q :=
  match v with
  | JNum q => if Qle_bool (Qabs q) max_float then ret q else raise OverflowError
  | JBool b => ret (if b then 1 else 0)
  | JNull => raise ValueError
  | _ => raise TypeError
  end.

(** Line 72, for one cell: the height of the column drawn for [temp]. *)
Definition elevation (temp : Q) : Q := temp * 3000.

(** [series * k] and [series.apply(f)] on a column of floats. *)
Definition series_mul (s : list Q) (k : Q) : list Q := map (fun x => x * k) s.
Definition series_apply {B : Type} (f : Q -> B) (s : list Q) : list B := map f s.

(** A row of the frame once lines 72 and 73 have added their columns. *)
Record VRow : Type := mkVRow {
  sample : Row;
  elevation_col : Q;
  color_col : list Z
}.

Fixpoint assign_columns (df : list Row) (elev : list Q) (colors : list (list Z))
  : list VRow :=
  match df, elev, colors with
  | r :: df', e :: elev', c :: colors' =>
      {| sample := r; elevation_col := e; color_col := c |}
        :: assign_columns df' elev' colors'
  | _, _, _ => []
  end.

(** Lines 72-73. *)
Definition derive (df : DataFrame) : result (list VRow) :=
  let* cells := getitem_Temperature df in
  let* temps := traverse as_float cells in
  ret (assign_columns df (series_mul temps 3000) (series_apply temp_to_color temps)).

(** Line 89 on any table with a time column: the rows whose timestamp is
    equal to the selected one, in their order. *)
Definition select_time {A : Type} (time_of : A -> datetime) (df : list A)
           (selected_time : Z) : list A :=
  filter (fun r => datetime_eqb (time_of r) (Timestamp selected_time)) df.

Definition df_selected (df : list VRow) (selected_time : Z) : list VRow :=
  select_time (fun r => time (sample r)) df selected_time.

Section Script.

(** The slider widget with the user behind it: given [min_value],
    [max_value] and [value] it yields the selected time or raises. *)
Variable st_slider : datetime -> datetime -> datetime -> result Z.

(** Lines 72-89 on the frame that [fetch_weather_data] returned. Line 78
    re-reads the time column as Python datetimes, which keeps every
    timestamp of whole microseconds (the stamps of the API are whole
    minutes); timestamps with a finer part are outside this definition. *)
Definition script (df : DataFrame) : result (list VRow) :=
  let* df1 := derive df in
  let* times := getitem_time df in
  let* selected_time := st_slider (series_min times) (series_max times) (series_min times) in
  ret (df_selected df1 selected_time).

End Script.

(* ================================================================== *)
(** ** A reader for the timestamps of the API

    Open-Meteo writes local times as [YYYY-MM-DDTHH:MM]. [pd_to_datetime]
    is [pd.to_datetime] on such strings and on null; every other string is
    refused with ValueError, as pandas refuses a string it cannot read as
    a date, and a value of another kind with TypeError. It serves the
    worked examples below, which use strings only; the general theorems
    hold for every reader. *)

Definition digit (c : ascii) : option Z :=
  let n := Z.of_nat (nat_of_ascii c) in
  if ((48 <=? n) && (n <=? 57))%Z then Some (n - 48)%Z else None.

Fixpoint digits (cs : list ascii) (acc : Z) : option Z :=
  match cs with
  | [] => Some acc
  | c :: cs' =>
      match digit c with
      | Some d => digits cs' (10 * acc + d)%Z
      | None => None
      end
  end.

Definition is_leap (y : Z) : bool :=
  ((y mod 4 =? 0) && (negb (y mod 100 =? 0) || (y mod 400 =? 0)))%Z.

Definition days_in_month (y m : Z) : Z :=
  (if m =? 2 then (if is_leap y then 29 else 28)
   else if (m =? 4) || (m =? 6) || (m =? 9) || (m =? 11) then 30
   else 31)%Z.

(** Days from 1970-01-01 to the civil date [y-m-d]. *)
Definition days_from_civil (y m d : Z) : Z :=
  (let y' := if m <=? 2 then y - 1 else y in
   let era := y' / 400 in
   let yoe := y' - era * 400 in
   let mp := (m + 9) mod 12 in
   let doy := (153 * mp + 2) / 5 + d - 1 in
   let doe := yoe * 365 + yoe / 4 - yoe / 100 + doy in
   era * 146097 + doe - 719468)%Z.

Definition parse_iso (s : string) : option Z :=
  match list_ascii_of_string s with
  | [y1; y2; y3; y4; "-"; m1; m2; "-"; d1; d2; "T"; h1; h2; ":"; n1; n2]%char =>
      match digits [y1; y2; y3; y4] 0, digits [m1; m2] 0, digits [d1; d2] 0,
            digits [h1; h2] 0, digits [n1; n2] 0 with
      | Some y, Some m, Some d, Some h, Some n =>
          if ((1 <=? m) && (m <=? 12) && (1 <=? d) && (d <=? days_in_month y m)
              && (h <=? 23) && (n <=? 59))%Z
          then Some (((days_from_civil y m d * 24 + h) * 60 + n) * 60000000000)%Z
          else None
      | _, _, _, _, _ => None
      end
  | _ => None
  end.

Definition pd_to_datetime (v : json) : result datetime :=
  match v with
  | JNull => ret NaT
  | JStr s =>
      match parse_iso s with
      | Some ns => ret (Timestamp ns)
      | None => raise ValueError
      end
  | _ => raise TypeError
  end.

(* ================================================================== *)
(** ** Worked inputs

    Responses shaped like those of the forecast API, and networks that
    answer each location by its coordinates. *)

Definition T0 : string := "2024-01-01T00:00".
Definition T1 : string := "2024-01-01T01:00".
Definition T2 : string := "2024-01-01T02:00".

Definition ns_T0 : Z := 1704067200000000000.
Definition ns_T1 : Z := 1704070800000000000.
Definition ns_T2 : Z := 1704074400000000000.

Definition api_body (times temps : list json) : json :=
  JObj [ ("timezone"%string, JStr "Asia/Tokyo");
         ("hourly_units"%string,
          JObj [("time"%string, JStr "iso8601");
                ("temperature_2m"%string, JStr "C")]);
         ("hourly"%string,
          JObj [("time"%string, JArr times);
                ("temperature_2m"%string, JArr temps)]) ].

Definition ok (times temps : list json) : result Response :=
  ret {| status_code := 200; payload := Some (api_body times temps) |}.

(** Whether a query is the one line 38 builds for [city]. *)
Definition asks_for (city : string) (p : Params) : bool :=
  existsb (fun entry =>
             String.eqb (fst entry) city
             && Qeq_bool (latitude p) (Coords.lat (snd entry))
             && Qeq_bool (longitude p) (Coords.lon (snd entry)))
          kyushu_capitals.

(** Every location answers with the same two hours. *)
Definition net_grid (url : string) (p : Params) : result Response :=
  ok [JStr T0; JStr T1] [JNum 8.4; JNum 7.9].

(** No location can be reached. *)
Definition net_down (url : string) (p : Params) : result Response :=
  raise ConnectionError.

(** Saga answers 503, the others as in [net_grid]. *)
Definition net_saga_503 (url : string) (p : Params) : result Response :=
  if asks_for "Saga" p
  then ret {| status_code := 503; payload := None |}
  else net_grid url p.

(** Fukuoka answers with a second timestamp that is no date, the others as
    in [net_grid]. *)
Definition net_bad_stamp (url : string) (p : Params) : result Response :=
  if asks_for "Fukuoka" p
  then ok [JStr T0; JStr "bogus"] [JNum 8.4; JNum 7.9]
  else net_grid url p.

(** Oita answers with three timestamps and two temperatures, the others as
    in [net_grid]. *)
Definition net_ragged (url : string) (p : Params) : result Response :=
  if asks_for "Oita" p
  then ok [JStr T0; JStr T1; JStr T2] [JNum 8.4; JNum 7.9]
  else net_grid url p.

(** A slider on its first run, before the user moved it: it yields the
    value it was given, and refuses a range whose minimum is not below its
    maximum. A range without timestamps is not modelled and refused too. *)
Definition slider_default (min_value max_value value : datetime) : result Z :=
  match min_value, max_value, value with
  | Timestamp lo, Timestamp hi, Timestamp z =>
      if (lo <? hi)%Z then ret z else raise StreamlitAPIException
  | _, _, _ => raise StreamlitAPIException
  end.

(** A row at two degrees below zero. *)
Definition frosty_row : Row :=
  {| City := "Saga"; lat := 33.2494; lon := 130.2974;
     time := Timestamp ns_T0; Temperature := JNum (-2) |}.

(** The frame of line 89 for a Dataset, empty when lines 72-73 raise. *)
Definition frame_of (rows : list Row) : list VRow :=
  match derive rows with
  | inr df => df
  | inl _ => []
  end.

(** All 7 locations over [net_grid], and the first 3 of them. *)
Definition grid_frame : list VRow :=
  frame_of (weather_info (fetch_weather_data net_grid pd_to_datetime)).

Definition scenario_frame : list VRow :=
  frame_of (weather_info
              (fetch_over net_grid pd_to_datetime (firstn 3 kyushu_capitals))).

(* ================================================================== *)
(** ** The colour mapping on binary64

    The same lines 23-29 and 72 on the machine floats of the kernel, with
    the rounding of every operation, NaN and the infinities. It is run on
    chosen temperatures and over ranges of them; it plays no part in the
    proofs over [Q]. *)

Module B64.

(** [int(x)]: the integer part; ValueError on NaN, OverflowError on an
    infinity. *)
Definition int (x : float) : result Z :=
  match Prim2SF x with
  | S754_zero _ => ret 0%Z
  | S754_finite s m e =>
      let magnitude :=
        match e with
        | Z0 => Zpos m
        | Zpos p => (Zpos m * 2 ^ Zpos p)%Z
        | Zneg p => (Zpos m / 2 ^ Zpos p)%Z
        end in
      ret (if s then (- magnitude)%Z else magnitude)
  | S754_infinity _ => raise OverflowError
  | S754_nan => raise ValueError
  end.

(** [np.maximum] and [np.minimum] against a bound that is a number: a
    NaN first argument is returned as it is. *)
Definition maximum (x bound : float) : float :=
  if PrimFloat.ltb x bound then bound else x.

Definition minimum (x bound : float) : float :=
  if PrimFloat.ltb bound x then bound else x.

Definition clip (x a_min a_max : float) : float :=
  minimum (maximum x a_min) a_max.

Definition temp_to_color (temp : float) : result (list Z) :=
  let t := clip ((temp + 5) / 40) 0 1 in
  let* r := int (255 * t) in
  let* g := int (255 * (1 - PrimFloat.abs (t - 0.5) * 2)) in
  let* b := int (255 * (1 - t)) in
  ret [r; g; b; 180%Z].

Definition elevation (temp : float) : float := (temp * 3000)%float.

(** The float of an integer below [2^63] in absolute value; exact below
    [2^53]. *)
Definition of_Z (z : Z) : float :=
  match z with
  | Z0 => 0%float
  | Zpos p => SF2Prim (S754_finite false p 0)
  | Zneg p => SF2Prim (S754_finite true p 0)
  end.

(** The float Python reads from a decimal with one digit after the point,
    [n / 10]: the quotient of two exact floats is rounded once. *)
Definition of_tenths (n : Z) : float := (of_Z n / 10)%float.


End B64.

(* ================================================================== *)
(** ** Notions used by the statements on rounding *)

(** The green channel before [int] cuts it, on exact numbers:
    [255 * (1 - |t - 0.5| * 2)] for the normalised temperature [t]. *)
Definition green_profile (temp : Q) : Q :=
  255 * (1 - Qabs (normalize temp - 0.5) * 2).

(** The temperature written [n / 10]. *)
Definition tenths (n : Z) : Q := n # 10.

(** [f] holds at [lo], [lo + 1], ..., [len] integers in all. *)
Fixpoint all_from (f : Z -> bool) (lo : Z) (len : nat) : bool :=
  match len with
  | O => true
  | S k => f lo && all_from f (lo + 1)%Z k
  end.


(** On binary64 the colour of [n / 10] has green between 0 and 255 and less
    than 2 below, less than 1 above the profile. *)
Definition green_check (n : Z) : bool :=
  match B64.temp_to_color (B64.of_tenths n) with
  | inr [r; g; b; a] =>
      (0 <=? g)%Z && (g <=? 255)%Z && (a =? 180)%Z
      && negb (Qle_bool (inject_Z g) (green_profile (tenths n) - 2))
      && negb (Qle_bool (green_profile (tenths n) + 1) (inject_Z g))
  | _ => false
  end.

(* ================================================================== *)
(** ** Notions used by the further properties *)

(** Line 96: the table shows the City and Temperature columns of the
    selected rows. *)
Definition table_view (df : list VRow) : list (string * json) :=
  map (fun v => (City (sample v), Temperature (sample v))) df.

(** Lines 113-122: what the ColumnLayer reads from each row of its data
    through its accessors: the position [[lon, lat]], the elevation and the
    fill colour. *)
Record Glyph : Type := mkGlyph {
  position : list Q;
  height : Q;
  fill_color : list Z
}.

Definition column_layer (data : list VRow) : list Glyph :=
  map (fun v => {| position := [lon (sample v); lat (sample v)];
                   height := elevation_col v;
                   fill_color := color_col v |}) data.

(** The turn of a location goes through: lines 46-53 raise nothing and
    [pd.to_datetime] reads the timestamp of every pair. *)
Definition read_in_full (requests_get : string -> Params -> result Response)
           (to_datetime : json -> result datetime) (coords : Coords.t) : Prop :=
  exists pairs stamps,
    request_series requests_get coords = inr pairs /\
    Forall2 (fun p d => to_datetime (fst p) = inr d) pairs stamps.

(** Whether a message of line 63 names [city]. *)
Definition names_city (city : string) (m : Message) : bool :=
  String.eqb (msg_city m) city.

(* ================================================================== *)
(** ** Facts about the primitives *)

#[global] Instance py_int_Proper : Proper (Qeq ==> eq) py_int.
Proof.
  intros x y E. unfold py_int.
  assert (B : Qle_bool 0 x = Qle_bool 0 y).
  { destruct (Qle_bool 0 x) eqn:Hx, (Qle_bool 0 y) eqn:Hy; trivial.
    - rewrite Qle_bool_iff in Hx. rewrite E in Hx.
      rewrite <- Qle_bool_iff in Hx. congruence.
    - rewrite Qle_bool_iff in Hy. rewrite <- E in Hy.
      rewrite <- Qle_bool_iff in Hy. congruence. }
  rewrite B. destruct (Qle_bool 0 y).
  - now apply Qfloor_comp.
  - now apply Qceiling_comp.
Qed.

#[global] Instance np_clip_Proper : Proper (Qeq ==> Qeq ==> Qeq ==> Qeq) np_clip.
Proof.
  intros x x' Ex a a' Ea b b' Eb. unfold np_clip. now rewrite Ex, Ea, Eb.
Qed.

Lemma py_int_Z (z : Z) : py_int (inject_Z z) = z.
Proof.
  unfold py_int. destruct (Qle_bool 0 (inject_Z z)).
  - apply Qfloor_Z.
  - apply Qceiling_Z.
Qed.

Lemma Qfloor_nonneg (x : Q) : 0 <= x -> (0 <= Qfloor x)%Z.
Proof.
  intros H. change 0%Z with (Qfloor (inject_Z 0)) at 1.
  rewrite Qfloor_Z at 1. rewrite <- (Qfloor_Z 0). now apply Qfloor_resp_le.
Qed.

Lemma Qceiling_nonpos (x : Q) : x <= 0 -> (Qceiling x <= 0)%Z.
Proof.
  intros H. rewrite <- (Qceiling_Z 0). now apply Qceiling_resp_le.
Qed.

(** Truncation toward zero is monotone on the whole line. *)
Lemma py_int_monotone (x y : Q) : x <= y -> (py_int x <= py_int y)%Z.
Proof.
  intros H. unfold py_int.
  destruct (Qle_bool 0 x) eqn:Hx, (Qle_bool 0 y) eqn:Hy.
  - now apply Qfloor_resp_le.
  - rewrite Qle_bool_iff in Hx.
    assert (Hy' : ~ 0 <= y) by (rewrite <- Qle_bool_iff; congruence).
    exfalso. apply Hy'. now apply Qle_trans with x.
  - assert (Hx' : ~ 0 <= x) by (rewrite <- Qle_bool_iff; congruence).
    rewrite Qle_bool_iff in Hy.
    apply Z.le_trans with 0%Z.
    + apply Qceiling_nonpos. apply Qlt_le_weak. now apply Qnot_le_lt.
    + now apply Qfloor_nonneg.
  - now apply Qceiling_resp_le.
Qed.

Lemma py_int_nonneg (x : Q) : 0 <= x -> py_int x = Qfloor x.
Proof.
  intros H. unfold py_int. apply Qle_bool_iff in H. now rewrite H.
Qed.

Lemma np_clip_below (x lo hi : Q) : lo <= hi -> x <= lo -> np_clip x lo hi == lo.
Proof.
  intros Hb Hx. unfold np_clip.
  rewrite (Q.max_r x lo) by assumption. now apply Q.min_l.
Qed.

Lemma np_clip_above (x lo hi : Q) : lo <= hi -> hi <= x -> np_clip x lo hi == hi.
Proof.
  intros Hb Hx. unfold np_clip.
  rewrite (Q.max_l x lo) by (now apply Qle_trans with hi).
  now apply Q.min_r.
Qed.

Lemma np_clip_inside (x lo hi : Q) : lo <= x -> x <= hi -> np_clip x lo hi == x.
Proof.
  intros Hl Hh. unfold np_clip.
  rewrite (Q.max_l x lo) by assumption. now apply Q.min_l.
Qed.

Lemma np_clip_range (x lo hi : Q) : lo <= hi -> lo <= np_clip x lo hi <= hi.
Proof.
  intros Hb. unfold np_clip. split.
  - apply Q.min_glb; [apply Q.le_max_r | assumption].
  - apply Q.le_min_r.
Qed.

Lemma np_clip_monotone (x y lo hi : Q) :
  x <= y -> np_clip x lo hi <= np_clip y lo hi.
Proof.
  intros H. unfold np_clip.
  apply Q.min_le_compat_r. now apply Q.max_le_compat_r.
Qed.

(** The normalised temperature in closed form. *)
Lemma normalize_cold (temp : Q) : temp <= -5 -> normalize temp == 0.
Proof.
  intros H. unfold normalize. apply np_clip_below; [lra|].
  apply Qle_shift_div_r; lra.
Qed.

Lemma normalize_hot (temp : Q) : 35 <= temp -> normalize temp == 1.
Proof.
  intros H. unfold normalize. apply np_clip_above; [lra|].
  apply Qle_shift_div_l; lra.
Qed.

Lemma normalize_nominal (temp : Q) :
  -5 <= temp <= 35 -> normalize temp == (temp + 5) / 40.
Proof.
  intros [H1 H2]. unfold normalize.
  apply np_clip_inside;
    [apply Qle_shift_div_l | apply Qle_shift_div_r]; lra.
Qed.

Lemma normalize_range (temp : Q) : 0 <= normalize temp <= 1.
Proof. unfold normalize. apply np_clip_range. lra. Qed.

Lemma normalize_monotone (t1 t2 : Q) : t1 <= t2 -> normalize t1 <= normalize t2.
Proof.
  intros H. unfold normalize. apply np_clip_monotone.
  unfold Qdiv. apply Qmult_le_compat_r; [lra | discriminate].
Qed.

(** [temp_to_color] through the normalised temperature. *)
Lemma temp_to_color_normalize (temp : Q) :
  temp_to_color temp =
    [ py_int (255 * normalize temp);
      py_int (255 * (1 - Qabs (normalize temp - 0.5) * 2));
      py_int (255 * (1 - normalize temp));
      180%Z ].
Proof. reflexivity. Qed.

Lemma temp_to_color_of_normalize (temp t : Q) :
  normalize temp == t ->
  temp_to_color temp =
    [ py_int (255 * t); py_int (255 * (1 - Qabs (t - 0.5) * 2));
      py_int (255 * (1 - t)); 180%Z ].
Proof.
  intros E. rewrite temp_to_color_normalize. now rewrite E.
Qed.

(* ================================================================== *)
(** ** The colour mapping *)

Lemma green_rising (temp : Q) :
  normalize temp <= 0.5 -> green temp = py_int (510 * normalize temp).
Proof.
  intros H. unfold green, channel. rewrite temp_to_color_normalize. simpl.
  apply py_int_Proper.
  assert (E : Qabs (normalize temp - 0.5) == - (normalize temp - 0.5))
    by (apply Qabs_neg; lra).
  rewrite E. ring.
Qed.

Lemma green_falling (temp : Q) :
  0.5 <= normalize temp -> green temp = py_int (510 * (1 - normalize temp)).
Proof.
  intros H. unfold green, channel. rewrite temp_to_color_normalize. simpl.
  apply py_int_Proper.
  assert (E : Qabs (normalize temp - 0.5) == normalize temp - 0.5)
    by (apply Qabs_pos; lra).
  rewrite E. ring.
Qed.

Lemma green_range (temp : Q) : (0 <= green temp <= 255)%Z.
Proof.
  pose proof (normalize_range temp) as [H0 H1].
  destruct (Qlt_le_dec (normalize temp) 0.5) as [L | L].
  - rewrite green_rising by lra. split.
    + rewrite <- (py_int_Z 0). apply py_int_monotone.
      change (inject_Z 0) with 0. lra.
    + rewrite <- (py_int_Z 255). apply py_int_monotone.
      change (inject_Z 255) with 255. lra.
  - rewrite green_falling by lra. split.
    + rewrite <- (py_int_Z 0). apply py_int_monotone.
      change (inject_Z 0) with 0. lra.
    + rewrite <- (py_int_Z 255). apply py_int_monotone.
      change (inject_Z 255) with 255. lra.
Qed.

(** C1. For every temperature at or below -5 degrees [temp_to_color] is
    exactly [0, 0, 255, 180], and for every temperature at or above 35
    degrees it is exactly [255, 0, 0, 180]: outside the nominal range the
    colour is the one of the nearer boundary, not an extrapolation. *)
Theorem temp_to_color_saturates (temp : Q) :
  (temp <= -5 ->
     temp_to_color temp = [0; 0; 255; 180]%Z /\
     temp_to_color temp = temp_to_color (-5)) /\
  (35 <= temp ->
     temp_to_color temp = [255; 0; 0; 180]%Z /\
     temp_to_color temp = temp_to_color 35).
Proof.
  split; intros H.
  - rewrite (temp_to_color_of_normalize temp 0) by now apply normalize_cold.
    split; reflexivity.
  - rewrite (temp_to_color_of_normalize temp 1) by now apply normalize_hot.
    split; reflexivity.
Qed.

Lemma temp_to_color_saturates_witness :
  (-12.5 <= -5 /\ temp_to_color (-12.5) = [0; 0; 255; 180]%Z) /\
  (35 <= 41 /\ temp_to_color 41 = [255; 0; 0; 180]%Z).
Proof.
  split; split.
  - discriminate.
  - apply (proj1 (temp_to_color_saturates (-12.5))). discriminate.
  - discriminate.
  - apply (proj2 (temp_to_color_saturates 41)). discriminate.
Defined.

(** C7. For all temperatures [t1 <= t2] the red channel does not decrease
    and the blue channel does not increase, over the whole domain. *)
Theorem color_channels_monotone (t1 t2 : Q) :
  t1 <= t2 -> (red t1 <= red t2)%Z /\ (blue t2 <= blue t1)%Z.
Proof.
  intros H. apply normalize_monotone in H.
  unfold red, blue, channel. rewrite !temp_to_color_normalize. simpl.
  split; apply py_int_monotone; lra.
Qed.

Lemma color_channels_monotone_witness :
  3 <= 21.4 /\ (red 3 <= red 21.4)%Z /\ (blue 21.4 <= blue 3)%Z.
Proof.
  split.
  - discriminate.
  - apply (color_channels_monotone 3 21.4). discriminate.
Defined.

Lemma all_from_spec (f : Z -> bool) (len : nat) (lo n : Z) :
  all_from f lo len = true ->
  (lo <= n < lo + Z.of_nat len)%Z -> f n = true.
Proof.
  revert lo. induction len as [| k IH]; intros lo H B; [lia|].
  simpl in H. apply andb_true_iff in H. destruct H as [H0 H1].
  destruct (Z.eq_dec n lo) as [-> | N]; [exact H0|].
  apply (IH (lo + 1)%Z H1). lia.
Qed.

(** The channel is the integer part of the profile, so it lies less than 1
    below it and never above it. *)
Lemma green_under_profile (temp : Q) :
  green_profile temp - 1 < inject_Z (green temp) /\
  inject_Z (green temp) <= green_profile temp.
Proof.
  assert (E : green temp = py_int (green_profile temp)) by reflexivity.
  assert (P : 0 <= green_profile temp).
  { pose proof (normalize_range temp) as [H0 H1]. unfold green_profile.
    destruct (Qlt_le_dec (normalize temp) 0.5) as [L | L].
    - assert (A : Qabs (normalize temp - 0.5) == - (normalize temp - 0.5))
        by (apply Qabs_neg; lra).
      rewrite A. lra.
    - assert (A : Qabs (normalize temp - 0.5) == normalize temp - 0.5)
        by (apply Qabs_pos; lra).
      rewrite A. lra. }
  rewrite E, (py_int_nonneg _ P).
  pose proof (Qfloor_le (green_profile temp)) as Lo.
  pose proof (Qlt_floor (green_profile temp)) as Hi.
  rewrite inject_Z_plus in Hi. change (inject_Z 1) with 1 in Hi.
  split; lra.
Qed.

Lemma green_checked : all_from green_check (-1000) 2001 = true.
Proof. vm_compute. reflexivity. Qed.

(** On binary64, for every temperature with one decimal between -100.0 and
    100.0, the colour has four channels with alpha 180, and its green lies
    between 0 and 255, less than 2 below and less than 1 above the
    profile. *)
Lemma green_on_binary64 (n : Z) :
  (-1000 <= n <= 1000)%Z ->
  exists r g b,
    B64.temp_to_color (B64.of_tenths n) = inr [r; g; b; 180]%Z /\
    (0 <= g <= 255)%Z /\
    green_profile (tenths n) - 2 < inject_Z g /\
    inject_Z g < green_profile (tenths n) + 1.
Proof.
  intros B.
  assert (C : green_check n = true)
    by (apply (all_from_spec _ _ _ _ green_checked); lia).
  unfold green_check in C.
  destruct (B64.temp_to_color (B64.of_tenths n)) as [e | l]; [discriminate|].
  destruct l as [| r [| g [| b [| a [| x l]]]]]; try discriminate.
  repeat (apply andb_true_iff in C; destruct C as [C ?]).
  exists r, g, b.
  match goal with H : (a =? 180)%Z = true |- _ =>
    apply Z.eqb_eq in H; subst a end.
  split; [reflexivity|]. split.
  - split; [now apply Z.leb_le | now apply Z.leb_le].
  - split; apply Qnot_le_lt; intros Hq; apply Qle_bool_iff in Hq.
    + match goal with
        H : negb (Qle_bool (inject_Z g) _) = true |- _ =>
          rewrite Hq in H; discriminate
      end.
    + match goal with
        H : negb (Qle_bool _ (inject_Z g)) = true |- _ =>
          rewrite Hq in H; discriminate
      end.
Qed.

(** C8. At 15 degrees, the midpoint of the nominal range, the colour is
    [127, 255, 127, 180], on exact numbers and on binary64: green is 255
    and red and blue are both 127. Green never exceeds that peak, does not
    decrease up to 15 degrees and does not increase after, and is 0 at and
    beyond both ends of the nominal range. It follows a profile that is
    linear in the normalised temperature on either side of the midpoint:
    the channel stays less than 2 below and less than 1 above the profile
    for every temperature, and so it does on binary64 for every temperature
    with one decimal between -100.0 and 100.0. *)
Theorem midpoint_color :
  temp_to_color 15 = [127; 255; 127; 180]%Z /\
  B64.temp_to_color 15 = inr [127; 255; 127; 180]%Z /\
  normalize 15 == 0.5 /\
  green 15 = 255%Z /\ red 15 = 127%Z /\ blue 15 = 127%Z /\
  (forall temp, (0 <= green temp <= green 15)%Z) /\
  (forall t1 t2, t1 <= t2 ->
     (t2 <= 15 -> (green t1 <= green t2)%Z) /\
     (15 <= t1 -> (green t2 <= green t1)%Z)) /\
  (forall temp, temp <= -5 \/ 35 <= temp -> green temp = 0%Z) /\
  (forall temp,
     (normalize temp <= 0.5 ->
      green_profile temp == 510 * normalize temp) /\
     (0.5 <= normalize temp ->
      green_profile temp == 510 * (1 - normalize temp))) /\
  (forall temp,
     green_profile temp - 2 < inject_Z (green temp) /\
     inject_Z (green temp) < green_profile temp + 1) /\
  (forall n, (-1000 <= n <= 1000)%Z ->
     exists r g b,
       B64.temp_to_color (B64.of_tenths n) = inr [r; g; b; 180]%Z /\
       (0 <= g <= 255)%Z /\
       green_profile (tenths n) - 2 < inject_Z g /\
       inject_Z g < green_profile (tenths n) + 1).
Proof.
  assert (M : normalize 15 == 0.5) by reflexivity.
  split; [reflexivity|]. split; [reflexivity|]. split; [exact M|].
  split; [reflexivity|]. split; [reflexivity|]. split; [reflexivity|].
  split; [intros temp; apply green_range|].
  split.
  { intros t1 t2 H. pose proof (normalize_monotone _ _ H) as N.
    split; intros B; pose proof (normalize_monotone _ _ B) as B';
      rewrite M in B'.
    - rewrite !green_rising by lra. apply py_int_monotone. lra.
    - rewrite !green_falling by lra. apply py_int_monotone. lra. }
  split.
  { intros temp [C | H].
    - pose proof (normalize_cold _ C) as E.
      rewrite green_rising by (rewrite E; discriminate). now rewrite E.
    - pose proof (normalize_hot _ H) as E.
      rewrite green_falling by (rewrite E; discriminate). now rewrite E. }
  split.
  { intros temp. unfold green_profile. split; intros L.
    - assert (A : Qabs (normalize temp - 0.5) == - (normalize temp - 0.5))
        by (apply Qabs_neg; lra).
      rewrite A. ring.
    - assert (A : Qabs (normalize temp - 0.5) == normalize temp - 0.5)
        by (apply Qabs_pos; lra).
      rewrite A. ring. }
  split.
  { intros temp. destruct (green_under_profile temp) as [Lo Hi].
    split; lra. }
  exact green_on_binary64.
Qed.

Lemma midpoint_color_witness :
  (-3 <= 9.5 /\ (green (-3) <= green 9.5)%Z) /\
  (35 <= 36.6 /\ green 36.6 = 0%Z) /\
  exists r g b,
    B64.temp_to_color (B64.of_tenths (-10)) = inr [r; g; b; 180]%Z /\
    (0 <= g <= 255)%Z /\
    green_profile (tenths (-10)) - 2 < inject_Z g /\
    inject_Z g < green_profile (tenths (-10)) + 1.
Proof.
  destruct midpoint_color
    as (_ & _ & _ & _ & _ & _ & _ & Mono & Zero & _ & _ & Bin).
  split; [|split].
  - split; [discriminate|].
    apply (proj1 (Mono (-3) 9.5 ltac:(discriminate))). discriminate.
  - split; [discriminate|]. apply Zero. right. discriminate.
  - apply (Bin (-10)%Z). lia.
Defined.

(* ================================================================== *)
(** ** The elevation column *)

Lemma assign_columns_sample (df : list Row) (elev : list Q) (colors : list (list Z)) :
  length elev = length df -> length colors = length df ->
  map sample (assign_columns df elev colors) = df.
Proof.
  revert elev colors.
  induction df as [| r df IH]; intros [| e elev] [| c colors] He Hc;
    simpl in *; try discriminate; trivial.
  f_equal. apply IH; congruence.
Qed.

Lemma traverse_length {A B : Type} (f : A -> result B) (l : list A) (bs : list B) :
  traverse f l = inr bs -> length bs = length l.
Proof.
  revert bs. induction l as [| a l IH]; simpl; intros bs H.
  - inversion H. reflexivity.
  - destruct (f a) as [e | b]; simpl in H; [discriminate|].
    destruct (traverse f l) as [e | bs']; simpl in H; [discriminate|].
    inversion H. simpl. f_equal. now apply IH.
Qed.

Lemma traverse_Forall2 {A B : Type} (f : A -> result B) (l : list A) (bs : list B) :
  traverse f l = inr bs -> Forall2 (fun a b => f a = inr b) l bs.
Proof.
  revert bs. induction l as [| a l IH]; simpl; intros bs H.
  - inversion H. constructor.
  - destruct (f a) as [e | b] eqn:Ea; simpl in H; [discriminate|].
    destruct (traverse f l) as [e | bs']; simpl in H; [discriminate|].
    inversion H. constructor; auto.
Qed.

Lemma Forall2_traverse {A B : Type} (f : A -> result B) (l : list A) (bs : list B) :
  Forall2 (fun a b => f a = inr b) l bs -> traverse f l = inr bs.
Proof.
  induction 1 as [| a b l bs Hab _ IH]; simpl; trivial.
  rewrite Hab. simpl. rewrite IH. reflexivity.
Qed.

(** A number that lines 72-73 accept is read as itself. *)
Lemma as_float_JNum (q q' : Q) : as_float (JNum q) = inr q' -> q' = q.
Proof.
  unfold as_float. destruct (Qle_bool (Qabs q) max_float); intros H;
    inversion H; reflexivity.
Qed.

(** Every row that lines 72-73 produce carries the product and the colour
    of its own temperature. *)
Lemma assign_columns_cells (df : list Row) (temps : list Q) :
  Forall2 (fun r q => as_float (Temperature r) = inr q) df temps ->
  Forall (fun v => exists q, as_float (Temperature (sample v)) = inr q /\
                             elevation_col v = elevation q /\
                             color_col v = temp_to_color q)
         (assign_columns df (series_mul temps 3000) (series_apply temp_to_color temps)).
Proof.
  induction 1 as [| r q df temps Hr _ IH]; simpl; constructor; auto.
  exists q. simpl. auto.
Qed.

Lemma derive_cells (df : DataFrame) (V : list VRow) :
  derive df = inr V ->
  map sample V = df /\
  Forall (fun v => exists q, as_float (Temperature (sample v)) = inr q /\
                             elevation_col v = elevation q /\
                             color_col v = temp_to_color q) V.
Proof.
  unfold derive, getitem_Temperature. intros H.
  destruct (has_column df "Temperature"); simpl in H; [|discriminate].
  destruct (traverse as_float (map Temperature df)) as [e | temps] eqn:T;
    simpl in H; [discriminate|].
  inversion H; subst V; clear H.
  pose proof (traverse_length _ _ _ T) as L. rewrite length_map in L.
  split.
  - apply assign_columns_sample;
      unfold series_mul, series_apply; now rewrite length_map.
  - apply assign_columns_cells.
    apply traverse_Forall2 in T.
    remember (map Temperature df) as cells eqn:Ec.
    revert df Ec L. induction T as [| v q cells temps Hv _ IH]; intros df Ec L.
    + destruct df; [constructor | discriminate].
    + destruct df as [| r df]; [discriminate|]. simpl in Ec. inversion Ec; subst.
      constructor.
      * exact Hv.
      * apply IH; trivial. simpl in L. congruence.
Qed.






(* ================================================================== *)
(** ** The retrieval loop *)

Lemma rows_of_city_app (city : string) (l1 l2 : list Row) :
  rows_of_city city (l1 ++ l2) = rows_of_city city l1 ++ rows_of_city city l2.
Proof. apply filter_app. Qed.

Lemma rows_of_city_same (city : string) (l : list Row) :
  Forall (fun r => City r = city) l -> rows_of_city city l = l.
Proof.
  induction 1 as [| r l Hr _ IH]; simpl; trivial.
  rewrite Hr, String.eqb_refl. now f_equal.
Qed.

Lemma rows_of_city_other (city : string) (l : list Row) :
  Forall (fun r => City r <> city) l -> rows_of_city city l = [].
Proof.
  induction 1 as [| r l Hr _ IH]; simpl; trivial.
  apply String.eqb_neq in Hr. now rewrite Hr.
Qed.

Lemma NoDup_map_fst_unique {A B : Type} (l : list (A * B)) (k : A) (v1 v2 : B) :
  NoDup (map fst l) -> In (k, v1) l -> In (k, v2) l -> v1 = v2.
Proof.
  induction l as [| [k' v'] l IH]; simpl; intros N H1 H2; [contradiction|].
  inversion N as [| ? ? Hnot N']; subst.
  destruct H1 as [E1 | H1], H2 as [E2 | H2].
  - congruence.
  - inversion E1; subst. exfalso. apply Hnot.
    change k with (fst (k, v2)). now apply in_map.
  - inversion E2; subst. exfalso. apply Hnot.
    change k with (fst (k, v1)). now apply in_map.
  - now apply IH.
Qed.

Lemma kyushu_capitals_NoDup : NoDup (map fst kyushu_capitals).
Proof.
  simpl. repeat (constructor; [simpl; intuition discriminate|]). constructor.
Qed.

Lemma request_series_ok
      (requests_get : string -> Params -> result Response)
      (coords : Coords.t) (response : Response) (times temps : list json) :
  requests_get BASE_URL (params_of coords) = inr response ->
  hourly_series response times temps ->
  request_series requests_get coords = inr (combine times temps).
Proof.
  intros G (S & data & h & P & H1 & H2 & H3).
  unfold request_series. rewrite G. simpl. rewrite S. simpl.
  unfold response_json. rewrite P. simpl. rewrite H1. simpl.
  rewrite H2. simpl. rewrite H3. reflexivity.
Qed.

Section RetrievalFacts.

Variable requests_get : string -> Params -> result Response.
Variable to_datetime : json -> result datetime.

(** The list the loop started from is a prefix of the list it leaves. *)
Lemma append_rows_app city coords pairs wi :
  append_rows to_datetime city coords pairs wi =
    (wi ++ fst (append_rows to_datetime city coords pairs []),
     snd (append_rows to_datetime city coords pairs [])).
Proof.
  revert wi. induction pairs as [| [t temp] pairs IH]; intros wi; simpl.
  - now rewrite app_nil_r.
  - destruct (to_datetime t) as [e | d]; simpl.
    + now rewrite app_nil_r.
    + rewrite (IH (wi ++ _)), (IH [_]). simpl.
      now rewrite <- app_assoc.
Qed.

Lemma append_rows_tagged city coords pairs :
  Forall (fun r => City r = city /\
                   lat r = Coords.lat coords /\ lon r = Coords.lon coords)
         (fst (append_rows to_datetime city coords pairs [])).
Proof.
  induction pairs as [| [t temp] pairs IH]; simpl; [constructor|].
  destruct (to_datetime t) as [e | d]; simpl; [constructor|].
  rewrite append_rows_app. simpl. constructor; auto.
Qed.

(** When the timestamps that have a partner are read, the loop appends
    one row per pair and ends without an exception. *)
Lemma append_rows_combine city coords times temps stamps :
  Forall2 (fun t d => to_datetime t = inr d)
          (firstn (length temps) times) stamps ->
  append_rows to_datetime city coords (combine times temps) [] =
    (rows_of city coords stamps temps, None).
Proof.
  revert temps stamps.
  induction times as [| t times IH]; intros [| temp temps] stamps H;
    simpl in *; inversion H; subst; try reflexivity.
  match goal with E : to_datetime t = inr _ |- _ => rewrite E end.
  rewrite append_rows_app.
  match goal with F : Forall2 _ _ _ |- _ => rewrite (IH _ _ F) end.
  reflexivity.
Qed.

Lemma fetch_city_eq st entry :
  fetch_city requests_get to_datetime st entry =
    {| weather_info :=
         weather_info st ++ city_rows requests_get to_datetime entry;
       st_errors :=
         st_errors st ++ city_messages requests_get to_datetime entry |}.
Proof.
  destruct entry as [city coords]. destruct st as [wi msgs].
  unfold fetch_city, city_rows, city_messages.
  simpl. destruct (request_series requests_get coords) as [e | pairs].
  - now rewrite app_nil_r.
  - rewrite append_rows_app.
    destruct (snd (append_rows to_datetime city coords pairs [])); simpl.
    + reflexivity.
    + now rewrite app_nil_r.
Qed.

Lemma fold_fetch_city capitals st :
  fold_left (fetch_city requests_get to_datetime) capitals st =
    {| weather_info :=
         weather_info st
           ++ flat_map (city_rows requests_get to_datetime) capitals;
       st_errors :=
         st_errors st
           ++ flat_map (city_messages requests_get to_datetime) capitals |}.
Proof.
  revert st. induction capitals as [| entry capitals IH]; intros st; simpl.
  - rewrite !app_nil_r. now destruct st.
  - rewrite IH, fetch_city_eq. simpl. now rewrite <- !app_assoc.
Qed.

(** The Dataset is the concatenation of what each location added, in the
    order of the table, and so are the messages. *)
Lemma fetch_over_eq capitals :
  fetch_over requests_get to_datetime capitals =
    {| weather_info := flat_map (city_rows requests_get to_datetime) capitals;
       st_errors := flat_map (city_messages requests_get to_datetime) capitals |}.
Proof. unfold fetch_over. now rewrite fold_fetch_city. Qed.

Lemma fetch_over_rows capitals :
  weather_info (fetch_over requests_get to_datetime capitals)
  = flat_map (city_rows requests_get to_datetime) capitals.
Proof. now rewrite fetch_over_eq. Qed.

Lemma fetch_over_messages capitals :
  st_errors (fetch_over requests_get to_datetime capitals)
  = flat_map (city_messages requests_get to_datetime) capitals.
Proof. now rewrite fetch_over_eq. Qed.

Lemma city_rows_tagged entry :
  Forall (fun r => City r = fst entry /\
                   lat r = Coords.lat (snd entry) /\
                   lon r = Coords.lon (snd entry))
         (city_rows requests_get to_datetime entry).
Proof.
  unfold city_rows.
  destruct (request_series requests_get (snd entry)); [constructor|].
  apply append_rows_tagged.
Qed.

Lemma city_messages_tagged entry :
  Forall (fun m => msg_city m = fst entry)
         (city_messages requests_get to_datetime entry).
Proof.
  unfold city_messages.
  destruct (request_series requests_get (snd entry)).
  - repeat constructor.
  - destruct (snd (append_rows _ _ _ _ _)); repeat constructor.
Qed.

(** A city that is not in the table has no row and no message. *)
Lemma rows_of_city_absent capitals city :
  ~ In city (map fst capitals) ->
  rows_of_city city (flat_map (city_rows requests_get to_datetime) capitals) = [].
Proof.
  intros Hnot. apply rows_of_city_other, Forall_forall. intros r Hr.
  apply in_flat_map in Hr. destruct Hr as (e & He & Hr).
  pose proof (city_rows_tagged e) as T. rewrite Forall_forall in T.
  destruct (T r Hr) as (C & _). rewrite C. intros Eq. apply Hnot.
  rewrite <- Eq. now apply in_map.
Qed.

Lemma messages_of_city_absent capitals city :
  ~ In city (map fst capitals) ->
  ~ In city (map msg_city
                 (flat_map (city_messages requests_get to_datetime) capitals)).
Proof.
  intros Hnot Hin. apply in_map_iff in Hin. destruct Hin as (m & Em & Hm).
  apply in_flat_map in Hm. destruct Hm as (e & He & Hm).
  pose proof (city_messages_tagged e) as T. rewrite Forall_forall in T.
  apply Hnot. rewrite <- Em, (T m Hm). now apply in_map.
Qed.

(** With distinct names in the table, the rows of one city are the rows
    its own turn of the loop added. *)
Lemma rows_of_city_flat_map capitals city coords :
  NoDup (map fst capitals) -> In (city, coords) capitals ->
  rows_of_city city (flat_map (city_rows requests_get to_datetime) capitals)
  = city_rows requests_get to_datetime (city, coords).
Proof.
  induction capitals as [| entry capitals IH]; simpl; intros N I;
    [contradiction|].
  inversion N as [| ? ? Hnot N']; subst.
  rewrite rows_of_city_app.
  destruct I as [E | I].
  - subst entry. rewrite rows_of_city_same.
    + rewrite rows_of_city_absent by exact Hnot. now rewrite app_nil_r.
    + eapply Forall_impl; [|apply city_rows_tagged]. simpl. tauto.
  - rewrite rows_of_city_other.
    + simpl. now apply IH.
    + eapply Forall_impl; [|apply city_rows_tagged].
      intros r (C & _). rewrite C. intros Eq. apply Hnot.
      rewrite Eq. change city with (fst (city, coords)). now apply in_map.
Qed.

(** With distinct names, a city is named by a message exactly when its
    own turn of the loop showed one. *)
Lemma messages_of_city_flat_map capitals city coords :
  NoDup (map fst capitals) -> In (city, coords) capitals ->
  (In city (map msg_city
                (flat_map (city_messages requests_get to_datetime) capitals))
   <-> city_messages requests_get to_datetime (city, coords) <> []).
Proof.
  intros N I. split.
  - intros Hin Hnil.
    apply in_map_iff in Hin. destruct Hin as (m & Em & Hm).
    apply in_flat_map in Hm. destruct Hm as (e & He & Hm).
    pose proof (city_messages_tagged e) as T. rewrite Forall_forall in T.
    assert (Ee : e = (city, coords)).
    { destruct e as [c' k']. specialize (T m Hm). simpl in T.
      assert (Ec : c' = city) by congruence. rewrite Ec in He |- *.
      f_equal. exact (NoDup_map_fst_unique capitals city k' coords N He I). }
    subst e. rewrite Hnil in Hm. contradiction.
  - intros Hne.
    destruct (city_messages requests_get to_datetime (city, coords))
      as [| m l] eqn:Em; [congruence|].
    apply in_map_iff. exists m. split.
    + pose proof (city_messages_tagged (city, coords)) as T.
      rewrite Em in T. now inversion T.
    + apply in_flat_map. exists (city, coords). split; trivial.
      rewrite Em. now left.
Qed.

End RetrievalFacts.

(* ================================================================== *)
(** ** The time filter *)

Lemma datetime_eqb_eq (d : datetime) (z : Z) :
  datetime_eqb d (Timestamp z) = true <-> d = Timestamp z.
Proof.
  destruct d as [| x]; simpl.
  - split; discriminate.
  - rewrite Z.eqb_eq. split; congruence.
Qed.

Lemma datetime_eqb_neq (d : datetime) (z : Z) :
  datetime_eqb d (Timestamp z) = false <-> d <> Timestamp z.
Proof.
  rewrite <- datetime_eqb_eq. destruct (datetime_eqb d (Timestamp z)).
  - split; [discriminate | intros H; now elim H].
  - split; [discriminate | trivial].
Qed.

Lemma flat_map_ext_In {A B : Type} (f g : A -> list B) (l : list A) :
  (forall a, In a l -> f a = g a) -> flat_map f l = flat_map g l.
Proof.
  induction l as [| a l IH]; simpl; intros H; trivial.
  rewrite (H a) by now left. f_equal. apply IH. intros b Hb. apply H. now right.
Qed.

Section SelectTime.

Context {A : Type} (time_of : A -> datetime).

Lemma select_time_In (df : list A) (selected_time : Z) (r : A) :
  In r (select_time time_of df selected_time) <->
  In r df /\ time_of r = Timestamp selected_time.
Proof.
  unfold select_time. rewrite filter_In. now rewrite datetime_eqb_eq.
Qed.

Lemma select_time_app (l1 l2 : list A) (t : Z) :
  select_time time_of (l1 ++ l2) t =
    select_time time_of l1 t ++ select_time time_of l2 t.
Proof. apply filter_app. Qed.

Lemma select_time_miss (df : list A) (selected_time : Z) :
  (forall r, In r df -> time_of r <> Timestamp selected_time) ->
  select_time time_of df selected_time = [].
Proof.
  induction df as [| r df IH]; intros H; simpl; trivial.
  assert (Hr : datetime_eqb (time_of r) (Timestamp selected_time) = false).
  { apply datetime_eqb_neq, H. now left. }
  rewrite Hr. apply IH. intros r' Hr'. apply H. now right.
Qed.

(** The rows kept and the rows dropped make up the table. *)
Lemma select_time_split (df : list A) (t : Z) :
  Permutation
    (select_time time_of df t
       ++ filter (fun r => negb (datetime_eqb (time_of r) (Timestamp t))) df)
    df.
Proof.
  induction df as [| r df IH]; simpl; [constructor|].
  destruct (datetime_eqb (time_of r) (Timestamp t)); simpl.
  - now constructor.
  - symmetry. apply Permutation_cons_app. now symmetry.
Qed.

Lemma select_time_dropped (df : list A) (t t' : Z) :
  t' <> t ->
  select_time time_of
    (filter (fun r => negb (datetime_eqb (time_of r) (Timestamp t))) df) t'
  = select_time time_of df t'.
Proof.
  intros Hne. induction df as [| r df IH]; simpl; trivial.
  destruct (datetime_eqb (time_of r) (Timestamp t)) eqn:E; simpl.
  - apply datetime_eqb_eq in E.
    assert (E' : datetime_eqb (time_of r) (Timestamp t') = false).
    { apply datetime_eqb_neq. rewrite E. congruence. }
    now rewrite E'.
  - destruct (datetime_eqb (time_of r) (Timestamp t')); simpl; now rewrite IH.
Qed.

(** Filtering at each of a list of distinct timestamps that covers the
    table splits the table: the results together are a rearrangement of
    it. *)
Lemma select_time_partition (ts : list Z) (df : list A) :
  NoDup ts ->
  (forall r, In r df -> exists t, In t ts /\ time_of r = Timestamp t) ->
  Permutation (flat_map (select_time time_of df) ts) df.
Proof.
  intros N. revert df. induction N as [| t ts Hnot N IH]; intros df Cover.
  - destruct df as [| r df]; [constructor|].
    destruct (Cover r (or_introl eq_refl)) as (t & [] & _).
  - simpl.
    set (rest := filter (fun r => negb (datetime_eqb (time_of r) (Timestamp t))) df).
    assert (E : flat_map (select_time time_of df) ts
                = flat_map (select_time time_of rest) ts).
    { apply flat_map_ext_In. intros t' Ht'. symmetry.
      apply select_time_dropped. intros ->. contradiction. }
    rewrite E.
    apply Permutation_trans with (select_time time_of df t ++ rest).
    + apply Permutation_app_head. apply IH.
      intros r Hr. apply filter_In in Hr. destruct Hr as [Hr Hn].
      destruct (Cover r Hr) as (t' & [-> | Ht'] & Et').
      * apply negb_true_iff, datetime_eqb_neq in Hn. contradiction.
      * eauto.
    + apply select_time_split.
Qed.

End SelectTime.

Lemma select_time_map {A B : Type} (f : A -> B) (time_of : B -> datetime)
      (df : list A) (t : Z) :
  select_time time_of (map f df) t =
    map f (select_time (fun a => time_of (f a)) df t).
Proof.
  induction df as [| a df IH]; simpl; trivial.
  destruct (datetime_eqb (time_of (f a)) (Timestamp t)); simpl; now rewrite IH.
Qed.

Lemma df_selected_sample (df : list VRow) (t : Z) :
  map sample (df_selected df t) = select_time time (map sample df) t.
Proof. unfold df_selected. now rewrite select_time_map. Qed.

(** C3. Line 89 is an exact-match filter. For every table and every
    selected time the result holds exactly the rows whose timestamp is
    equal to the selected time, the rows it leaves out are the rows with
    another timestamp, and when no row has the selected time the result is
    the empty table; the filter itself has no exceptional outcome. *)
Theorem df_selected_exact_match (df : list VRow) (selected_time : Z) :
  (forall r, In r (df_selected df selected_time) <->
             In r df /\ time (sample r) = Timestamp selected_time) /\
  (exists rest,
      Permutation (df_selected df selected_time ++ rest) df /\
      Forall (fun r => time (sample r) <> Timestamp selected_time) rest) /\
  ((forall r, In r df -> time (sample r) <> Timestamp selected_time) ->
   df_selected df selected_time = []).
Proof.
  unfold df_selected. split; [|split].
  - intros r. apply (select_time_In (fun v => time (sample v))).
  - eexists. split.
    + apply (select_time_split (fun v => time (sample v))).
    + apply Forall_forall. intros r Hr. apply filter_In in Hr.
      destruct Hr as [_ Hn]. now apply negb_true_iff, datetime_eqb_neq in Hn.
  - apply (select_time_miss (fun v => time (sample v))).
Qed.

(* ================================================================== *)
(** ** Properties of [fetch_weather_data] *)

Lemma firstn_min_length {A B : Type} (l : list A) (l' : list B) :
  firstn (length l') l = firstn (Nat.min (length l) (length l')) l.
Proof.
  destruct (Nat.le_ge_cases (length l) (length l')) as [H | H].
  - rewrite Nat.min_l by exact H. now rewrite !firstn_all2 by lia.
  - now rewrite Nat.min_r by exact H.
Qed.

Lemma rows_of_length city coords stamps temps :
  length (rows_of city coords stamps temps)
  = Nat.min (length stamps) (length temps).
Proof. unfold rows_of. now rewrite length_map, length_combine. Qed.

Lemma rows_of_Temperature city coords stamps temps :
  map Temperature (rows_of city coords stamps temps)
  = firstn (length stamps) temps.
Proof.
  unfold rows_of. rewrite map_map. simpl.
  revert temps. induction stamps as [| d stamps IH]; intros [| v temps];
    simpl; trivial.
  now rewrite IH.
Qed.

Lemma rows_of_time city coords stamps temps :
  map time (rows_of city coords stamps temps)
  = firstn (length temps) stamps.
Proof.
  unfold rows_of. rewrite map_map. simpl.
  revert temps. induction stamps as [| d stamps IH]; intros [| v temps];
    simpl; trivial.
  now rewrite IH.
Qed.

(** C10. Every row of the Dataset that [fetch_weather_data] returns names
    one of the 7 configured locations and carries exactly the coordinates
    configured for that name, whatever the network answered and however
    the timestamps were read. *)
Theorem coordinates_pass_through
        (requests_get : string -> Params -> result Response)
        (to_datetime : json -> result datetime) (r : Row) :
  In r (weather_info (fetch_weather_data requests_get to_datetime)) ->
  length kyushu_capitals = 7%nat /\
  In (City r) (map fst kyushu_capitals) /\
  In (City r, Coords.make (lat r) (lon r)) kyushu_capitals /\
  (forall coords, In (City r, coords) kyushu_capitals ->
                  lat r = Coords.lat coords /\ lon r = Coords.lon coords).
Proof.
  unfold fetch_weather_data. rewrite fetch_over_rows.
  intros Hr. apply in_flat_map in Hr. destruct Hr as ([city coords] & He & Hr).
  pose proof (city_rows_tagged requests_get to_datetime (city, coords)) as T.
  rewrite Forall_forall in T. destruct (T r Hr) as (C & La & Lo).
  simpl in C, La, Lo.
  assert (Here : In (City r, Coords.make (lat r) (lon r)) kyushu_capitals).
  { rewrite C, La, Lo. now destruct coords. }
  split; [reflexivity|]. split; [|split; [exact Here|]].
  - change (City r) with (fst (City r, Coords.make (lat r) (lon r))).
    now apply in_map.
  - intros c Hc.
    rewrite (NoDup_map_fst_unique _ _ _ _ kyushu_capitals_NoDup Hc Here).
    split; reflexivity.
Qed.

Lemma coordinates_pass_through_witness :
  let r := {| City := "Fukuoka"; lat := 33.5904; lon := 130.4017;
              time := Timestamp ns_T0; Temperature := JNum 8.4 |} in
  In r (weather_info (fetch_weather_data net_bad_stamp pd_to_datetime)) /\
  In (City r, Coords.make (lat r) (lon r)) kyushu_capitals.
Proof.
  assert (H : In {| City := "Fukuoka"; lat := 33.5904; lon := 130.4017;
                    time := Timestamp ns_T0; Temperature := JNum 8.4 |}
                 (weather_info (fetch_weather_data net_bad_stamp pd_to_datetime)))
    by (vm_compute; now left).
  split; [exact H|].
  exact (proj1 (proj2 (proj2
           (coordinates_pass_through net_bad_stamp pd_to_datetime _ H)))).
Defined.

(** C9. When the response of a location holds a [time] array and a
    [temperature_2m] array of different lengths, the location is not
    refused: provided the timestamps that have a partner are read by
    [pd.to_datetime], the Dataset holds for that location exactly
    [min(len(time), len(temperature_2m))] rows, the positional pairs, the
    tail of the longer array is dropped, and no message names the
    location. *)
Theorem mismatched_lengths_are_zipped
        (requests_get : string -> Params -> result Response)
        (to_datetime : json -> result datetime)
        (city : string) (coords : Coords.t) (response : Response)
        (times temps : list json) (stamps : list datetime) :
  In (city, coords) kyushu_capitals ->
  requests_get BASE_URL (params_of coords) = inr response ->
  hourly_series response times temps ->
  Forall2 (fun t d => to_datetime t = inr d)
          (firstn (Nat.min (length times) (length temps)) times) stamps ->
  let st := fetch_weather_data requests_get to_datetime in
  let n := Nat.min (length times) (length temps) in
  length (rows_of_city city (weather_info st)) = n /\
  map Temperature (rows_of_city city (weather_info st)) = firstn n temps /\
  map time (rows_of_city city (weather_info st)) = stamps /\
  ~ In city (map msg_city (st_errors st)).
Proof.
  intros I G S P st n. subst st.
  unfold fetch_weather_data. rewrite fetch_over_rows, fetch_over_messages.
  rewrite (rows_of_city_flat_map _ _ _ _ _ kyushu_capitals_NoDup I).
  rewrite (messages_of_city_flat_map _ _ _ _ _ kyushu_capitals_NoDup I).
  rewrite <- firstn_min_length in P.
  unfold city_rows, city_messages. simpl fst. simpl snd.
  rewrite (request_series_ok _ _ _ _ _ G S).
  rewrite (append_rows_combine _ _ _ _ _ _ P). simpl fst. simpl snd.
  assert (L : length stamps = n).
  { apply Forall2_length in P. rewrite <- P. rewrite firstn_min_length.
    rewrite length_firstn. subst n. lia. }
  split; [|split; [|split]].
  - rewrite rows_of_length. subst n. lia.
  - rewrite rows_of_Temperature. now rewrite L.
  - rewrite rows_of_time. apply firstn_all2. subst n. lia.
  - intros H. now apply H.
Qed.

Lemma mismatched_lengths_are_zipped_witness :
  let st := fetch_weather_data net_ragged pd_to_datetime in
  length (rows_of_city "Oita" (weather_info st)) = 2%nat /\
  map Temperature (rows_of_city "Oita" (weather_info st))
  = [JNum 8.4; JNum 7.9] /\
  map time (rows_of_city "Oita" (weather_info st))
  = [Timestamp ns_T0; Timestamp ns_T1] /\
  ~ In "Oita"%string (map msg_city (st_errors st)).
Proof.
  apply (mismatched_lengths_are_zipped net_ragged pd_to_datetime
           "Oita" (Coords.make 33.2381 131.6119)
           {| status_code := 200;
              payload := Some (api_body [JStr T0; JStr T1; JStr T2]
                                        [JNum 8.4; JNum 7.9]) |}
           [JStr T0; JStr T1; JStr T2] [JNum 8.4; JNum 7.9]
           [Timestamp ns_T0; Timestamp ns_T1]).
  - simpl. tauto.
  - reflexivity.
  - split; [reflexivity|]. eexists. eexists.
    split; [reflexivity|]. split; [reflexivity|]. split; reflexivity.
  - repeat constructor.
Defined.

(* ================================================================== *)
(** ** Retrieval followed by the filter *)

Lemma Forall2_map_r {A B C : Type} (R : A -> C -> Prop) (f : B -> C)
      (l : list A) (l' : list B) :
  Forall2 (fun a b => R a (f b)) l l' -> Forall2 R l (map f l').
Proof. induction 1; simpl; constructor; auto. Qed.

Lemma In_firstn_In {A : Type} (n : nat) (l : list A) (a : A) :
  In a (firstn n l) -> In a l.
Proof.
  revert l. induction n as [| n IH]; intros [| b l]; simpl; try tauto.
  intros [E | H]; auto.
Qed.

Lemma rows_of_cons city coords z ts v temps :
  rows_of city coords (map Timestamp (z :: ts)) (v :: temps)
  = {| City := city; lat := Coords.lat coords; lon := Coords.lon coords;
       time := Timestamp z; Temperature := v |}
      :: rows_of city coords (map Timestamp ts) temps.
Proof. reflexivity. Qed.

Lemma select_time_cons {A : Type} (time_of : A -> datetime) r df t :
  select_time time_of (r :: df) t
  = if datetime_eqb (time_of r) (Timestamp t)
    then r :: select_time time_of df t
    else select_time time_of df t.
Proof. reflexivity. Qed.

Lemma select_rows_of_miss city coords ts temps t :
  ~ In t ts ->
  select_time time (rows_of city coords (map Timestamp ts) temps) t = [].
Proof.
  intros Hnot. apply select_time_miss. intros r Hr Et.
  assert (Hin : In (time r) (map time (rows_of city coords (map Timestamp ts) temps)))
    by now apply in_map.
  rewrite rows_of_time in Hin. apply In_firstn_In in Hin.
  rewrite Et in Hin. apply in_map_iff in Hin.
  destruct Hin as (z & Ez & Hz). inversion Ez; subst. contradiction.
Qed.

Lemma select_rows_of_hit city coords ts temps t :
  NoDup ts -> In t ts -> length temps = length ts ->
  map City (select_time time (rows_of city coords (map Timestamp ts) temps) t)
  = [city].
Proof.
  intros N. revert temps.
  induction N as [| z ts Hnot N IH]; intros temps I L; [contradiction|].
  destruct temps as [| v temps]; [discriminate|].
  simpl in L. injection L as L.
  rewrite rows_of_cons, select_time_cons. simpl time. simpl datetime_eqb.
  destruct (Z.eqb_spec z t) as [E | E].
  - subst z. rewrite select_rows_of_miss by exact Hnot. reflexivity.
  - destruct I as [I | I]; [contradiction|]. now apply IH.
Qed.

Section RoundTrip.

Variable requests_get : string -> Params -> result Response.
Variable to_datetime : json -> result datetime.
Variable times : list json.
Variable ts : list Z.

Hypothesis times_read :
  Forall2 (fun t z => to_datetime t = inr (Timestamp z)) times ts.

Lemma city_rows_grid capitals city coords :
  common_grid requests_get times capitals -> In (city, coords) capitals ->
  exists temps,
    length temps = length ts /\
    city_rows requests_get to_datetime (city, coords)
    = rows_of city coords (map Timestamp ts) temps.
Proof.
  intros G I. destruct (G city coords I) as (response & temps & R & S & L).
  exists temps. split.
  - rewrite L. now apply Forall2_length in times_read.
  - unfold city_rows. simpl fst. simpl snd.
    rewrite (request_series_ok _ _ _ _ _ R S).
    rewrite (append_rows_combine to_datetime city coords times temps
               (map Timestamp ts)); [reflexivity|].
    rewrite L, firstn_all. now apply Forall2_map_r.
Qed.

Lemma grid_selected capitals t :
  common_grid requests_get times capitals -> NoDup ts -> In t ts ->
  map City (select_time time
              (flat_map (city_rows requests_get to_datetime) capitals) t)
  = map fst capitals.
Proof.
  intros G N I.
  induction capitals as [| [city coords] capitals IH]; simpl; trivial.
  rewrite select_time_app, map_app.
  destruct (city_rows_grid _ city coords G (or_introl eq_refl))
    as (temps & L & E).
  rewrite E, (select_rows_of_hit _ _ _ _ _ N I L). simpl. f_equal.
  apply IH. intros c k Hc. apply (G c k). now right.
Qed.

Lemma grid_covered capitals r :
  common_grid requests_get times capitals ->
  In r (flat_map (city_rows requests_get to_datetime) capitals) ->
  exists t, In t ts /\ time r = Timestamp t.
Proof.
  intros G Hr. apply in_flat_map in Hr.
  destruct Hr as ([city coords] & He & Hr).
  destruct (city_rows_grid _ city coords G He) as (temps & L & E).
  rewrite E in Hr.
  assert (Hin : In (time r)
                   (map time (rows_of city coords (map Timestamp ts) temps)))
    by now apply in_map.
  rewrite rows_of_time in Hin. apply In_firstn_In in Hin.
  apply in_map_iff in Hin. destruct Hin as (z & Ez & Hz). eauto.
Qed.

End RoundTrip.

(** C6. Take a Dataset retrieved from N locations that all answered with
    the same M distinct timestamps, and the frame of line 89 built on it.
    Filtering at any of the M timestamps gives exactly N rows, one per
    location in the order of the table, and the M filtered results together
    are a rearrangement of the whole frame. *)
Theorem retrieval_filter_round_trip
        (requests_get : string -> Params -> result Response)
        (to_datetime : json -> result datetime)
        (capitals : list (string * Coords.t))
        (times : list json) (ts : list Z) (df : list VRow) :
  common_grid requests_get times capitals ->
  Forall2 (fun t z => to_datetime t = inr (Timestamp z)) times ts ->
  NoDup ts ->
  map sample df = weather_info (fetch_over requests_get to_datetime capitals) ->
  (forall t, In t ts ->
     map (fun v => City (sample v)) (df_selected df t) = map fst capitals /\
     length (df_selected df t) = length capitals) /\
  Permutation (flat_map (df_selected df) ts) df /\
  length df = (length capitals * length ts)%nat.
Proof.
  intros G R N E. rewrite fetch_over_rows in E.
  assert (Sel : forall t, In t ts ->
            map (fun v => City (sample v)) (df_selected df t) = map fst capitals).
  { intros t I. rewrite <- (map_map sample City), df_selected_sample, E.
    now apply (grid_selected requests_get to_datetime times ts R). }
  split; [|split].
  - intros t I. split; [now apply Sel|].
    rewrite <- (length_map (fun v => City (sample v))), (Sel t I).
    apply length_map.
  - unfold df_selected. apply select_time_partition; trivial.
    intros v Hv.
    apply (grid_covered requests_get to_datetime times ts R capitals); trivial.
    rewrite <- E. now apply in_map.
  - rewrite <- (length_map sample), E.
    rewrite (flat_map_constant_length (c := length ts)); trivial.
    intros [city coords] He.
    destruct (city_rows_grid requests_get to_datetime times ts R
                capitals city coords G He) as (temps & L & Er).
    rewrite Er, rows_of_length, length_map. lia.
Qed.

Lemma grid_is_common (capitals : list (string * Coords.t)) :
  common_grid net_grid [JStr T0; JStr T1] capitals.
Proof.
  intros city coords _.
  exists {| status_code := 200;
            payload := Some (api_body [JStr T0; JStr T1] [JNum 8.4; JNum 7.9]) |}.
  exists [JNum 8.4; JNum 7.9].
  split; [reflexivity|]. split; [|reflexivity].
  split; [reflexivity|].
  eexists. eexists. split; [reflexivity|].
  split; [reflexivity|]. split; reflexivity.
Qed.

Lemma grid_stamps_read :
  Forall2 (fun t z => pd_to_datetime t = inr (Timestamp z))
          [JStr T0; JStr T1] [ns_T0; ns_T1].
Proof. repeat constructor. Qed.

Lemma grid_stamps_NoDup : NoDup [ns_T0; ns_T1].
Proof.
  repeat constructor; simpl; [|tauto].
  intros [E | []]. discriminate.
Qed.

Lemma retrieval_filter_round_trip_witness :
  (map (fun v => City (sample v)) (df_selected grid_frame ns_T1)
   = map fst kyushu_capitals /\
   length (df_selected grid_frame ns_T1) = 7%nat) /\
  Permutation (flat_map (df_selected grid_frame) [ns_T0; ns_T1]) grid_frame /\
  length grid_frame = 14%nat.
Proof.
  destruct (retrieval_filter_round_trip net_grid pd_to_datetime
              kyushu_capitals [JStr T0; JStr T1] [ns_T0; ns_T1] grid_frame
              (grid_is_common kyushu_capitals) grid_stamps_read
              grid_stamps_NoDup eq_refl) as (A & B & C).
  split; [|split].
  - apply A. simpl. tauto.
  - exact B.
  - exact C.
Defined.

Lemma df_selected_exact_match_witness :
  length (df_selected scenario_frame ns_T0) = 3%nat /\
  (forall r, In r (df_selected scenario_frame ns_T0) <->
             In r scenario_frame /\ time (sample r) = Timestamp ns_T0) /\
  df_selected scenario_frame ns_T2 = [].
Proof.
  split; [reflexivity|]. split.
  - exact (proj1 (df_selected_exact_match scenario_frame ns_T0)).
  - apply (proj2 (proj2 (df_selected_exact_match scenario_frame ns_T2))).
    apply Forall_forall. vm_compute. repeat constructor; discriminate.
Defined.

(* ================================================================== *)
(** ** Failing locations *)

Section Isolation.

Variable requests_get : string -> Params -> result Response.
Variable to_datetime : json -> result datetime.

Lemma messages_only_from capitals city coords :
  NoDup (map fst capitals) -> In (city, coords) capitals ->
  (forall c k, In (c, k) capitals -> c <> city ->
               city_messages requests_get to_datetime (c, k) = []) ->
  flat_map (city_messages requests_get to_datetime) capitals
  = city_messages requests_get to_datetime (city, coords).
Proof.
  induction capitals as [| [c k] capitals IH]; simpl; intros N I Q;
    [contradiction|].
  inversion N as [| ? ? Hnot N']; subst.
  assert (Rest : forall l,
             (forall e, In e l -> fst e <> city) ->
             (forall e, In e l -> In e capitals) ->
             flat_map (city_messages requests_get to_datetime) l = []).
  { induction l as [| [c' k'] l IHl]; simpl; intros Hd Hs; trivial.
    rewrite (Q c' k').
    - simpl. apply IHl; auto.
    - right. apply Hs. now left.
    - apply (Hd (c', k')). now left. }
  destruct I as [E | I].
  - inversion E; subst. rewrite Rest; [now rewrite app_nil_r | | auto].
    intros e He Eq. apply Hnot. rewrite <- Eq. now apply in_map.
  - assert (Hc : c <> city).
    { intros Eq. apply Hnot. rewrite Eq.
      change city with (fst (city, coords)). now apply in_map. }
    rewrite (Q c k) by auto. simpl. apply IH; auto.
Qed.

(** A location whose request, status check, JSON decoding, member lookup
    or [zip] raises adds no row and shows one message; when no other
    location shows a message, that message is the only one, and every
    other location keeps the rows of its own turn. *)
Lemma failure_before_loop_is_isolated city coords e :
  In (city, coords) kyushu_capitals ->
  request_series requests_get coords = inl e ->
  (forall c k, In (c, k) kyushu_capitals -> c <> city ->
               city_messages requests_get to_datetime (c, k) = []) ->
  let st := fetch_weather_data requests_get to_datetime in
  st_errors st = [ {| msg_city := city; msg_exn := e |} ] /\
  rows_of_city city (weather_info st) = [] /\
  (forall c k, In (c, k) kyushu_capitals -> c <> city ->
     rows_of_city c (weather_info st)
     = city_rows requests_get to_datetime (c, k)).
Proof.
  intros I F Q st. subst st. unfold fetch_weather_data.
  rewrite fetch_over_rows, fetch_over_messages.
  split; [|split].
  - rewrite (messages_only_from _ _ _ kyushu_capitals_NoDup I Q).
    unfold city_messages. simpl snd. now rewrite F.
  - rewrite (rows_of_city_flat_map _ _ _ _ _ kyushu_capitals_NoDup I).
    unfold city_rows. simpl snd. now rewrite F.
  - intros c k Ic _.
    apply (rows_of_city_flat_map _ _ _ _ _ kyushu_capitals_NoDup Ic).
Qed.

(** The retrieval has a result on every network: it is a total function
    and its Dataset and messages are those of the seven turns. *)
Lemma fetch_weather_data_total :
  exists rows msgs,
    fetch_weather_data requests_get to_datetime
    = {| weather_info := rows; st_errors := msgs |} /\
    (length msgs <= 7)%nat.
Proof.
  unfold fetch_weather_data. rewrite fetch_over_eq.
  eexists. eexists. split; [reflexivity|].
  assert (B : forall l,
             (length (flat_map (city_messages requests_get to_datetime) l)
              <= length l)%nat).
  { induction l as [| entry l IH]; simpl; trivial.
    rewrite length_app.
    assert (length (city_messages requests_get to_datetime entry) <= 1)%nat.
    { unfold city_messages.
      destruct (request_series requests_get (snd entry)); simpl; trivial.
      destruct (snd (append_rows _ _ _ _ _)); simpl; auto. }
    lia. }
  apply (B kyushu_capitals).
Qed.

End Isolation.

Lemma failure_before_loop_is_isolated_witness :
  let st := fetch_weather_data net_saga_503 pd_to_datetime in
  st_errors st = [ {| msg_city := "Saga"; msg_exn := HTTPError 503 |} ] /\
  rows_of_city "Saga" (weather_info st) = [] /\
  rows_of_city "Oita" (weather_info st)
  = city_rows net_saga_503 pd_to_datetime
      ("Oita"%string, Coords.make 33.2381 131.6119).
Proof.
  destruct (failure_before_loop_is_isolated net_saga_503 pd_to_datetime
              "Saga" (Coords.make 33.2494 130.2974) (HTTPError 503))
    as (M & R & O).
  - simpl. tauto.
  - reflexivity.
  - intros c k H Hc. simpl in H.
    repeat (destruct H as [H | H];
            [inversion H; subst; first [reflexivity | now elim Hc]|]).
    contradiction.
  - split; [exact M|]. split; [exact R|].
    apply O; [simpl; tauto | discriminate].
Defined.

Example saga_503_is_isolated :
  let st := fetch_weather_data net_saga_503 pd_to_datetime in
  map City (select_time time (weather_info st) ns_T0)
  = ["Fukuoka"; "Nagasaki"; "Kumamoto"; "Oita"; "Miyazaki"; "Kagoshima"]%string /\
  length (weather_info st) = 12%nat.
Proof. vm_compute. repeat split. Qed.

(** C5 (defect). One of the 7 locations, Fukuoka, answers with a body
    whose second timestamp is not a date while the six others answer well.
    The retrieval goes on and shows one message naming Fukuoka, but the row
    appended for Fukuoka before the exception stays in the Dataset: the
    failed location is not excluded. *)
Theorem failed_location_keeps_partial_rows :
  let st := fetch_weather_data net_bad_stamp pd_to_datetime in
  st_errors st = [ {| msg_city := "Fukuoka"; msg_exn := ValueError |} ] /\
  rows_of_city "Fukuoka" (weather_info st)
  = [ {| City := "Fukuoka"; lat := 33.5904; lon := 130.4017;
         time := Timestamp ns_T0; Temperature := JNum 8.4 |} ] /\
  map City (weather_info st)
  = ["Fukuoka"; "Saga"; "Saga"; "Nagasaki"; "Nagasaki"; "Kumamoto";
     "Kumamoto"; "Oita"; "Oita"; "Miyazaki"; "Miyazaki"; "Kagoshima";
     "Kagoshima"]%string.
Proof. vm_compute. repeat split. Qed.

(* ================================================================== *)
(** ** The script on what the retrieval returned *)

Lemma script_empty (st_slider : datetime -> datetime -> datetime -> result Z) :
  script st_slider [] = inl (KeyError "Temperature").
Proof. reflexivity. Qed.

(** The scenario of three locations with two hours each: the script with
    the slider left at its default shows three rows, and a time that is not
    in the data shows none. *)
Example scenario_three_locations :
  let rows := weather_info
                (fetch_over net_grid pd_to_datetime (firstn 3 kyushu_capitals)) in
  script slider_default rows = inr (df_selected scenario_frame ns_T0) /\
  map (fun v => City (sample v)) (df_selected scenario_frame ns_T0)
  = ["Fukuoka"; "Saga"; "Nagasaki"]%string /\
  script (fun _ _ _ => ret ns_T2) rows = inr [].
Proof. vm_compute. repeat split. Qed.

(** C2 (defect). When no location can be reached the retrieval returns an
    empty Dataset and seven messages, and the script then stops on line 72
    with KeyError 'Temperature', whatever the slider would do: the colour
    column, the slider and the filter are never reached. *)
Theorem empty_dataset_stops_the_script :
  let st := fetch_weather_data net_down pd_to_datetime in
  weather_info st = [] /\
  map msg_city (st_errors st) = map fst kyushu_capitals /\
  columns (weather_info st) = [] /\
  forall st_slider, script st_slider (weather_info st)
                    = inl (KeyError "Temperature").
Proof.
  split; [reflexivity|]. split; [reflexivity|]. split; [reflexivity|].
  intros st_slider. apply script_empty.
Qed.

(* ================================================================== *)
(** ** The two readings of the numbers side by side *)

(** At the temperatures the properties above single out, the colours on
    binary64 are the colours on [Q]. *)
Example binary64_agrees_at_the_named_points :
  B64.temp_to_color 15 = inr (temp_to_color 15) /\
  B64.temp_to_color (-5) = inr (temp_to_color (-5)) /\
  B64.temp_to_color 35 = inr (temp_to_color 35) /\
  B64.temp_to_color (-12.5) = inr (temp_to_color (-12.5)) /\
  B64.temp_to_color 41 = inr (temp_to_color 41) /\
  B64.temp_to_color 3 = inr (temp_to_color 3) /\
  B64.temp_to_color neg_infinity = inr [0; 0; 255; 180]%Z /\
  B64.temp_to_color infinity = inr [255; 0; 0; 180]%Z /\
  B64.elevation (-2) = (-6000)%float.
Proof. vm_compute. repeat split. Qed.

(** The readings are not the same function: at 27 degrees green and blue
    are 102 and 51 on [Q] and 101 and 50 on binary64, where [0.8 - 0.5]
    and [1 - 0.8] are rounded; and a NaN temperature makes [int] raise. *)
Example binary64_differs_at_27 :
  temp_to_color 27 = [204; 102; 51; 180]%Z /\
  B64.temp_to_color 27 = inr [204; 101; 50; 180]%Z /\
  B64.temp_to_color nan = inl ValueError.
Proof. vm_compute. repeat split. Qed.

(* ================================================================== *)
(** ** More on the colour mapping *)

Lemma py_int_between (x : Q) (lo hi : Z) :
  inject_Z lo <= x -> x <= inject_Z hi -> (lo <= py_int x <= hi)%Z.
Proof.
  intros Hl Hh. split.
  - rewrite <- (py_int_Z lo). now apply py_int_monotone.
  - rewrite <- (py_int_Z hi). now apply py_int_monotone.
Qed.

Lemma normalize_midpoint : normalize 15 == 0.5.
Proof. reflexivity. Qed.

(** The integer parts of [x] and of [255 - x] add up to 255 when [x] is an
    integer and to 254 otherwise. *)
Lemma Qfloor_complement (x y : Q) :
  x + y == 255 -> (254 <= Qfloor x + Qfloor y <= 255)%Z.
Proof.
  intros E.
  pose proof (Qfloor_le x) as Lx. pose proof (Qfloor_le y) as Ly.
  pose proof (Qlt_floor x) as Ux. pose proof (Qlt_floor y) as Uy.
  rewrite inject_Z_plus in Ux, Uy.
  change (inject_Z 1) with 1 in Ux, Uy.
  split.
  - assert (H : inject_Z 253 < inject_Z (Qfloor x + Qfloor y)).
    { rewrite inject_Z_plus. change (inject_Z 253) with 253. lra. }
    rewrite <- Zlt_Qlt in H. lia.
  - assert (H : inject_Z (Qfloor x + Qfloor y) <= inject_Z 255).
    { rewrite inject_Z_plus. change (inject_Z 255) with 255. lra. }
    rewrite <- Zle_Qle in H. exact H.
Qed.

(** Every list that [temp_to_color] returns is a colour: four channels,
    red, green and blue between 0 and 255 and alpha 180, for every
    temperature, however far outside the nominal range. *)
Theorem temp_to_color_is_rgba (temp : Q) :
  exists r g b,
    temp_to_color temp = [r; g; b; 180]%Z /\
    (0 <= r <= 255)%Z /\ (0 <= g <= 255)%Z /\ (0 <= b <= 255)%Z.
Proof.
  pose proof (normalize_range temp) as [H0 H1].
  exists (red temp), (green temp), (blue temp).
  split; [reflexivity|]. split; [|split].
  - unfold red, channel. rewrite temp_to_color_normalize. simpl.
    apply py_int_between.
    + change (inject_Z 0) with 0. lra.
    + change (inject_Z 255) with 255. lra.
  - apply green_range.
  - unfold blue, channel. rewrite temp_to_color_normalize. simpl.
    apply py_int_between.
    + change (inject_Z 0) with 0. lra.
    + change (inject_Z 255) with 255. lra.
Qed.

(** Red and blue are complementary: for every temperature they add up to
    255, or to 254 when truncation cut both. *)
Theorem red_plus_blue (temp : Q) :
  (254 <= red temp + blue temp <= 255)%Z.
Proof.
  pose proof (normalize_range temp) as [H0 H1].
  unfold red, blue, channel. rewrite temp_to_color_normalize. simpl.
  rewrite !py_int_nonneg by lra.
  apply Qfloor_complement. ring.
Qed.

(** Green rises up to 15 degrees and falls after it: it does not decrease
    between two temperatures at or below 15 and does not increase between
    two temperatures at or above 15. *)
Theorem green_rises_then_falls (t1 t2 : Q) :
  t1 <= t2 ->
  (t2 <= 15 -> (green t1 <= green t2)%Z) /\
  (15 <= t1 -> (green t2 <= green t1)%Z).
Proof.
  intros H. pose proof (normalize_monotone _ _ H) as M. split; intros B.
  - pose proof (normalize_monotone _ _ B) as B'.
    rewrite normalize_midpoint in B'.
    rewrite !green_rising by lra. apply py_int_monotone. lra.
  - pose proof (normalize_monotone _ _ B) as B'.
    rewrite normalize_midpoint in B'.
    rewrite !green_falling by lra. apply py_int_monotone. lra.
Qed.

Lemma green_rises_then_falls_witness :
  -3 <= 9.5 /\ (green (-3) <= green 9.5)%Z /\
  18 <= 30 /\ (green 30 <= green 18)%Z.
Proof.
  split; [discriminate|]. split.
  - apply (proj1 (green_rises_then_falls (-3) 9.5 ltac:(discriminate))).
    discriminate.
  - split; [discriminate|].
    apply (proj2 (green_rises_then_falls 18 30 ltac:(discriminate))).
    discriminate.
Defined.

(** Below the midpoint the colour leans to blue and above it to red: at or
    below 15 degrees red is at most blue, at or above 15 degrees blue is at
    most red. *)
Theorem cold_is_blue_hot_is_red (temp : Q) :
  (temp <= 15 -> (red temp <= blue temp)%Z) /\
  (15 <= temp -> (blue temp <= red temp)%Z).
Proof.
  split; intros B; pose proof (normalize_monotone _ _ B) as B';
    rewrite normalize_midpoint in B';
    unfold red, blue, channel; rewrite temp_to_color_normalize; simpl;
    apply py_int_monotone; lra.
Qed.

Lemma cold_is_blue_hot_is_red_witness :
  (4 <= 15 /\ (red 4 <= blue 4)%Z) /\ (15 <= 22 /\ (blue 22 <= red 22)%Z).
Proof.
  split; (split; [discriminate|]).
  - apply (proj1 (cold_is_blue_hot_is_red 4)). discriminate.
  - apply (proj2 (cold_is_blue_hot_is_red 22)). discriminate.
Defined.

(* ================================================================== *)
(** ** More on the derived columns, the slider range and the filter *)

Lemma channels_follow_temperature (q1 q2 : Q) :
  q1 <= q2 ->
  (channel 0 (temp_to_color q1) <= channel 0 (temp_to_color q2))%Z /\
  (channel 2 (temp_to_color q2) <= channel 2 (temp_to_color q1))%Z.
Proof.
  intros H. apply normalize_monotone in H.
  unfold channel. rewrite !temp_to_color_normalize. simpl.
  split; apply py_int_monotone; lra.
Qed.

Lemma derived_cell (df : DataFrame) (V : list VRow) (v : VRow) (q : Q) :
  derive df = inr V -> In v V -> Temperature (sample v) = JNum q ->
  elevation_col v = elevation q /\ color_col v = temp_to_color q.
Proof.
  intros D I T. destruct (derive_cells _ _ D) as [_ F].
  rewrite Forall_forall in F. destruct (F v I) as (q' & T' & E & C).
  rewrite T in T'. apply as_float_JNum in T'. subst q'. auto.
Qed.

Lemma colour_is_rgba (temp : Q) :
  exists r g b,
    temp_to_color temp = [r; g; b; 180]%Z /\
    (0 <= r <= 255)%Z /\ (0 <= g <= 255)%Z /\ (0 <= b <= 255)%Z.
Proof.
  pose proof (normalize_range temp) as [H0 H1].
  exists (channel 0 (temp_to_color temp)), (green temp),
         (channel 2 (temp_to_color temp)).
  split; [reflexivity|]. split; [|split].
  - unfold channel. rewrite temp_to_color_normalize. simpl.
    apply py_int_between.
    + change (inject_Z 0) with 0. lra.
    + change (inject_Z 255) with 255. lra.
  - apply green_range.
  - unfold channel. rewrite temp_to_color_normalize. simpl.
    apply py_int_between.
    + change (inject_Z 0) with 0. lra.
    + change (inject_Z 255) with 255. lra.
Qed.

(** Lines 72-73 only add columns: when they succeed the frame has the rows
    of the Dataset, all of them and in their order; the two new cells of a
    row are computed from the temperature of that same row, so two rows
    with the same temperature have the same elevation and the same colour;
    and every colour cell is a colour: red, green and blue between 0 and
    255 and alpha 180. *)
Theorem derive_adds_columns_only (df : DataFrame) (V : list VRow) :
  derive df = inr V ->
  map sample V = df /\
  length V = length df /\
  (forall v1 v2, In v1 V -> In v2 V ->
     Temperature (sample v1) = Temperature (sample v2) ->
     elevation_col v1 = elevation_col v2 /\ color_col v1 = color_col v2) /\
  Forall (fun v => exists r g b,
              color_col v = [r; g; b; 180]%Z /\
              (0 <= r <= 255)%Z /\ (0 <= g <= 255)%Z /\ (0 <= b <= 255)%Z) V.
Proof.
  intros D. destruct (derive_cells _ _ D) as [S F].
  split; [exact S|]. split; [|split].
  - rewrite <- (length_map sample). now rewrite S.
  - rewrite Forall_forall in F. intros v1 v2 I1 I2 T.
    destruct (F v1 I1) as (q1 & T1 & E1 & C1).
    destruct (F v2 I2) as (q2 & T2 & E2 & C2).
    rewrite T, T2 in T1. inversion T1; subst q2.
    rewrite E1, E2, C1, C2. split; reflexivity.
  - eapply Forall_impl; [|exact F]. intros v (q & _ & _ & C).
    rewrite C. apply colour_is_rgba.
Qed.

Lemma derive_adds_columns_only_witness :
  map sample grid_frame
  = weather_info (fetch_weather_data net_grid pd_to_datetime) /\
  length grid_frame
  = length (weather_info (fetch_weather_data net_grid pd_to_datetime)) /\
  (forall v1 v2, In v1 grid_frame -> In v2 grid_frame ->
     Temperature (sample v1) = Temperature (sample v2) ->
     elevation_col v1 = elevation_col v2 /\ color_col v1 = color_col v2) /\
  Forall (fun v => exists r g b,
              color_col v = [r; g; b; 180]%Z /\
              (0 <= r <= 255)%Z /\ (0 <= g <= 255)%Z /\ (0 <= b <= 255)%Z)
         grid_frame.
Proof.
  exact (derive_adds_columns_only
           (weather_info (fetch_weather_data net_grid pd_to_datetime))
           grid_frame eq_refl).
Defined.

(** In the derived frame height and colour tell the same story: of two
    rows, the one with the higher temperature has a column at least as
    tall, at least as red and at most as blue. *)
Theorem warmer_is_taller_and_redder
        (df : DataFrame) (V : list VRow) (v1 v2 : VRow) (q1 q2 : Q) :
  derive df = inr V -> In v1 V -> In v2 V ->
  Temperature (sample v1) = JNum q1 -> Temperature (sample v2) = JNum q2 ->
  q1 <= q2 ->
  elevation_col v1 <= elevation_col v2 /\
  (channel 0 (color_col v1) <= channel 0 (color_col v2))%Z /\
  (channel 2 (color_col v2) <= channel 2 (color_col v1))%Z.
Proof.
  intros D I1 I2 T1 T2 H.
  destruct (derived_cell _ _ _ _ D I1 T1) as [E1 C1].
  destruct (derived_cell _ _ _ _ D I2 T2) as [E2 C2].
  rewrite E1, E2, C1, C2. split.
  - unfold elevation. lra.
  - now apply channels_follow_temperature.
Qed.

Lemma warmer_is_taller_and_redder_witness :
  let cold := {| sample := frosty_row; elevation_col := -6000;
                 color_col := [19; 38; 235; 180]%Z |} in
  let mild := {| sample := mkRow "Oita" 33.2381 131.6119 (Timestamp ns_T0)
                                 (JNum 8.4);
                 elevation_col := 25200.0;
                 color_col := [85; 170; 169; 180]%Z |} in
  elevation_col cold <= elevation_col mild /\
  (channel 0 (color_col cold) <= channel 0 (color_col mild))%Z /\
  (channel 2 (color_col mild) <= channel 2 (color_col cold))%Z.
Proof.
  apply (warmer_is_taller_and_redder
           [frosty_row;
            mkRow "Oita" 33.2381 131.6119 (Timestamp ns_T0) (JNum 8.4)]
           _ _ _ (-2) 8.4 eq_refl).
  - simpl. tauto.
  - simpl. tauto.
  - reflexivity.
  - reflexivity.
  - discriminate.
Defined.

Lemma traverse_fails {A B : Type} (f : A -> result B) (l : list A) (a : A) (e : exn) :
  In a l -> f a = inl e -> exists e', traverse f l = inl e'.
Proof.
  induction l as [| x l IH]; simpl; intros I F; [contradiction|].
  destruct I as [-> | I].
  - rewrite F. simpl. eauto.
  - destruct (f x) as [e0 | b]; simpl; [eauto|].
    destruct (IH I F) as (e' & E'). rewrite E'. simpl. eauto.
Qed.

(** A null temperature anywhere in the Dataset stops the script: lines
    72-73 raise, and neither the slider nor the filter is reached, whatever
    the other rows hold. *)
Theorem null_temperature_stops_the_script
        (st_slider : datetime -> datetime -> datetime -> result Z)
        (df : DataFrame) (r : Row) :
  In r df -> Temperature r = JNull ->
  exists e, derive df = inl e /\ script st_slider df = inl e.
Proof.
  intros I N.
  assert (C : has_column df "Temperature" = true)
    by (destruct df; [contradiction | reflexivity]).
  destruct (traverse_fails as_float (map Temperature df) JNull ValueError)
    as (e & E).
  - rewrite <- N. now apply in_map.
  - reflexivity.
  - exists e.
    assert (D : derive df = inl e).
    { unfold derive, getitem_Temperature. rewrite C. simpl. now rewrite E. }
    split; [exact D|]. unfold script. now rewrite D.
Qed.

Lemma null_temperature_stops_the_script_witness :
  exists e,
    derive [frosty_row; mkRow "Saga" 33.2494 130.2974 (Timestamp ns_T1) JNull]
    = inl e /\
    script slider_default
           [frosty_row; mkRow "Saga" 33.2494 130.2974 (Timestamp ns_T1) JNull]
    = inl e.
Proof.
  apply (null_temperature_stops_the_script slider_default _
           (mkRow "Saga" 33.2494 130.2974 (Timestamp ns_T1) JNull)).
  - simpl. tauto.
  - reflexivity.
Defined.

(** Filtering twice is filtering once, and two different times share no
    row: selecting [t'] in the table selected at [t] gives that table again
    when [t' = t] and the empty table otherwise; a selection is never
    longer than the table. *)
Theorem df_selected_twice (df : list VRow) (t t' : Z) :
  df_selected (df_selected df t) t'
  = (if (t =? t')%Z then df_selected df t else []) /\
  (length (df_selected df t) <= length df)%nat.
Proof.
  split.
  - unfold df_selected, select_time.
    destruct (Z.eqb_spec t t') as [<- | N].
    + induction df as [| v df IH]; simpl; trivial.
      destruct (datetime_eqb (time (sample v)) (Timestamp t)) eqn:E; simpl.
      * rewrite E. now rewrite IH.
      * exact IH.
    + induction df as [| v df IH]; simpl; trivial.
      destruct (datetime_eqb (time (sample v)) (Timestamp t)) eqn:E; simpl.
      * apply datetime_eqb_eq in E. rewrite E. simpl.
        apply Z.eqb_neq in N. now rewrite N.
      * exact IH.
  - unfold df_selected, select_time. apply filter_length_le.
Qed.

Lemma series_min_from (s : list datetime) (a : Z) :
  exists m,
    fold_left (fun acc d =>
                 match acc, d with
                 | _, NaT => acc
                 | NaT, Timestamp _ => d
                 | Timestamp a, Timestamp b => Timestamp (Z.min a b)
                 end) s (Timestamp a) = Timestamp m /\
    (m <= a)%Z /\ (m = a \/ In (Timestamp m) s) /\
    (forall z, In (Timestamp z) s -> (m <= z)%Z).
Proof.
  revert a. induction s as [| d s IH]; intros a; simpl.
  - exists a. repeat split; [lia | now left | contradiction].
  - destruct d as [| b].
    + destruct (IH a) as (m & E & L & M & A). exists m.
      split; [exact E|]. split; [exact L|]. split; [tauto|].
      intros z [Hz | Hz]; [discriminate | now apply A].
    + destruct (IH (Z.min a b)) as (m & E & L & M & A). exists m.
      split; [exact E|]. split; [lia|]. split.
      * destruct M as [M | M]; [|tauto].
        destruct (Z.min_spec a b) as [[_ Q] | [_ Q]]; rewrite Q in M.
        -- now left.
        -- right. left. now rewrite M.
      * intros z [Hz | Hz]; [inversion Hz; lia | now apply A].
Qed.

Lemma series_max_from (s : list datetime) (a : Z) :
  exists m,
    fold_left (fun acc d =>
                 match acc, d with
                 | _, NaT => acc
                 | NaT, Timestamp _ => d
                 | Timestamp a, Timestamp b => Timestamp (Z.max a b)
                 end) s (Timestamp a) = Timestamp m /\
    (a <= m)%Z /\ (m = a \/ In (Timestamp m) s) /\
    (forall z, In (Timestamp z) s -> (z <= m)%Z).
Proof.
  revert a. induction s as [| d s IH]; intros a; simpl.
  - exists a. repeat split; [lia | now left | contradiction].
  - destruct d as [| b].
    + destruct (IH a) as (m & E & L & M & A). exists m.
      split; [exact E|]. split; [exact L|]. split; [tauto|].
      intros z [Hz | Hz]; [discriminate | now apply A].
    + destruct (IH (Z.max a b)) as (m & E & L & M & A). exists m.
      split; [exact E|]. split; [lia|]. split.
      * destruct M as [M | M]; [|tauto].
        destruct (Z.max_spec a b) as [[_ Q] | [_ Q]]; rewrite Q in M.
        -- right. left. now rewrite M.
        -- now left.
      * intros z [Hz | Hz]; [inversion Hz; lia | now apply A].
Qed.

Lemma series_min_spec (s : list datetime) :
  (exists z, In (Timestamp z) s) ->
  exists m, series_min s = Timestamp m /\ In (Timestamp m) s /\
            (forall z, In (Timestamp z) s -> (m <= z)%Z).
Proof.
  unfold series_min. induction s as [| d s IH]; intros (z & Hz);
    [contradiction|].
  destruct d as [| b]; simpl.
  - destruct Hz as [Hz | Hz]; [discriminate|].
    destruct (IH (ex_intro _ z Hz)) as (m & E & I & A).
    exists m. split; [exact E|]. split; [now right|].
    intros z' [Hz' | Hz']; [discriminate | now apply A].
  - destruct (series_min_from s b) as (m & E & L & M & A).
    exists m. split; [exact E|]. split.
    + destruct M as [-> | M]; [now left | now right].
    + intros z' [Hz' | Hz']; [inversion Hz'; lia | now apply A].
Qed.

Lemma series_max_spec (s : list datetime) :
  (exists z, In (Timestamp z) s) ->
  exists m, series_max s = Timestamp m /\ In (Timestamp m) s /\
            (forall z, In (Timestamp z) s -> (z <= m)%Z).
Proof.
  unfold series_max. induction s as [| d s IH]; intros (z & Hz);
    [contradiction|].
  destruct d as [| b]; simpl.
  - destruct Hz as [Hz | Hz]; [discriminate|].
    destruct (IH (ex_intro _ z Hz)) as (m & E & I & A).
    exists m. split; [exact E|]. split; [now right|].
    intros z' [Hz' | Hz']; [discriminate | now apply A].
  - destruct (series_max_from s b) as (m & E & L & M & A).
    exists m. split; [exact E|]. split.
    + destruct M as [-> | M]; [now left | now right].
    + intros z' [Hz' | Hz']; [inversion Hz'; lia | now apply A].
Qed.



Lemma slider_min_row (df : DataFrame) (r : Row) (z : Z) :
  In r df -> time r = Timestamp z ->
  exists t0 r0,
    series_min (map time df) = Timestamp t0 /\
    In r0 df /\ time r0 = Timestamp t0 /\
    (forall r' z', In r' df -> time r' = Timestamp z' -> (t0 <= z')%Z).
Proof.
  intros I T.
  assert (Ex : exists z, In (Timestamp z) (map time df)).
  { exists z. rewrite <- T. now apply in_map. }
  destruct (series_min_spec _ Ex) as (lo & El & Il & Al).
  apply in_map_iff in Il. destruct Il as (r0 & T0' & I0).
  exists lo, r0. repeat split; trivial.
  intros r' z' I' T'. apply Al. rewrite <- T'. now apply in_map.
Qed.

Lemma traverse_total {A B : Type} (f : A -> result B) (l : list A) :
  (forall a, In a l -> exists b, f a = inr b) ->
  exists bs, traverse f l = inr bs.
Proof.
  induction l as [| a l IH]; intros H; simpl.
  - exists []. reflexivity.
  - destruct (H a (or_introl eq_refl)) as (b & Eb).
    destruct IH as (bs & Ebs); [intros x Hx; apply H; now right|].
    exists (b :: bs). rewrite Eb. simpl. rewrite Ebs. reflexivity.
Qed.

(** The first render shows something. Take a Dataset in which lines 72-73
    can compute with every temperature and which holds two different
    timestamps, and a slider that, given a minimum below its maximum,
    yields the value it was given (the minimum), as a slider does before
    the user moves it. Then the script selects the earliest time of the
    Dataset, every row it renders has that time, and it renders at least
    one row. *)
Theorem first_render_is_not_empty
        (st_slider : datetime -> datetime -> datetime -> result Z)
        (df : DataFrame) (r1 r2 : Row) (z1 z2 : Z) :
  (forall r, In r df -> exists temp, as_float (Temperature r) = inr temp) ->
  In r1 df -> time r1 = Timestamp z1 ->
  In r2 df -> time r2 = Timestamp z2 ->
  (z1 < z2)%Z ->
  (forall lo hi, (lo < hi)%Z ->
                 st_slider (Timestamp lo) (Timestamp hi) (Timestamp lo) = inr lo) ->
  exists selected t0,
    script st_slider df = inr selected /\
    selected <> [] /\
    Forall (fun v => time (sample v) = Timestamp t0) selected /\
    (forall r' z', In r' df -> time r' = Timestamp z' -> (t0 <= z')%Z).
Proof.
  intros Ht I1 T1 I2 T2 Lt S.
  destruct (slider_min_row df r1 z1 I1 T1) as (t0 & r0 & E0 & I0 & T0' & A0).
  assert (Ex : exists z, In (Timestamp z) (map time df)).
  { exists z2. rewrite <- T2. now apply in_map. }
  destruct (series_max_spec _ Ex) as (hi & Eh & _ & Ah).
  assert (Lh : (t0 < hi)%Z).
  { assert (t0 <= z1)%Z by (apply (A0 r1); trivial).
    assert (z2 <= hi)%Z by (apply Ah; rewrite <- T2; now apply in_map).
    lia. }
  assert (C : has_column df "Temperature" = true /\ has_column df "time" = true)
    by (destruct df; [contradiction | split; reflexivity]).
  destruct C as [C1 C2].
  destruct (traverse_total as_float (map Temperature df)) as (temps & Tr).
  { intros c Hc. apply in_map_iff in Hc. destruct Hc as (r & <- & Hr).
    now apply Ht. }
  assert (D : derive df
              = inr (assign_columns df (series_mul temps 3000)
                       (series_apply temp_to_color temps))).
  { unfold derive, getitem_Temperature. rewrite C1. simpl. now rewrite Tr. }
  destruct (derive_cells _ _ D) as [Sm _].
  eexists. exists t0. split.
  - unfold script, getitem_time. rewrite D, C2. simpl.
    rewrite E0, Eh, (S t0 hi Lh). reflexivity.
  - split; [|split].
    + intros Hnil.
      assert (In r0 (map sample (df_selected
                (assign_columns df (series_mul temps 3000)
                   (series_apply temp_to_color temps)) t0))).
      { rewrite df_selected_sample, Sm. apply select_time_In. auto. }
      rewrite Hnil in H. contradiction.
    + apply Forall_forall. intros v Hv.
      unfold df_selected in Hv.
      now apply (select_time_In (fun v => time (sample v))) in Hv.
    + exact A0.
Qed.

Lemma first_render_is_not_empty_witness :
  exists selected t0,
    script slider_default
           (weather_info (fetch_weather_data net_grid pd_to_datetime))
    = inr selected /\
    selected <> [] /\
    Forall (fun v => time (sample v) = Timestamp t0) selected /\
    (forall r' z',
        In r' (weather_info (fetch_weather_data net_grid pd_to_datetime)) ->
        time r' = Timestamp z' -> (t0 <= z')%Z).
Proof.
  apply (first_render_is_not_empty slider_default
           (weather_info (fetch_weather_data net_grid pd_to_datetime))
           (mkRow "Fukuoka" 33.5904 130.4017 (Timestamp ns_T0) (JNum 8.4))
           (mkRow "Fukuoka" 33.5904 130.4017 (Timestamp ns_T1) (JNum 7.9))
           ns_T0 ns_T1).
  - intros r Hr. vm_compute in Hr.
    repeat (destruct Hr as [<- | Hr]; [eexists; reflexivity|]).
    contradiction.
  - vm_compute. now left.
  - reflexivity.
  - vm_compute. right. now left.
  - reflexivity.
  - reflexivity.
  - intros lo hi H. unfold slider_default. apply Z.ltb_lt in H.
    now rewrite H.
Defined.

(* ================================================================== *)
(** ** More on the retrieval loop *)

Lemma request_series_ext
      (rg1 rg2 : string -> Params -> result Response) (coords : Coords.t) :
  rg1 BASE_URL (params_of coords) = rg2 BASE_URL (params_of coords) ->
  request_series rg1 coords = request_series rg2 coords.
Proof. intros E. unfold request_series. simpl. now rewrite E. Qed.

Section MoreRetrieval.

Variable requests_get : string -> Params -> result Response.
Variable to_datetime : json -> result datetime.

Lemma names_city_same city (l : list Message) :
  Forall (fun m => msg_city m = city) l -> filter (names_city city) l = l.
Proof.
  induction 1 as [| m l Hm _ IH]; simpl; trivial.
  unfold names_city at 1. rewrite Hm, String.eqb_refl. now f_equal.
Qed.

Lemma names_city_other city (l : list Message) :
  Forall (fun m => msg_city m <> city) l -> filter (names_city city) l = [].
Proof.
  induction 1 as [| m l Hm _ IH]; simpl; trivial.
  unfold names_city at 1. apply String.eqb_neq in Hm. now rewrite Hm.
Qed.

(** With distinct names in the table, the messages that name a city are
    the messages of its own turn of the loop. *)
Lemma messages_naming_city capitals city coords :
  NoDup (map fst capitals) -> In (city, coords) capitals ->
  filter (names_city city)
         (flat_map (city_messages requests_get to_datetime) capitals)
  = city_messages requests_get to_datetime (city, coords).
Proof.
  induction capitals as [| entry capitals IH]; simpl; intros N I;
    [contradiction|].
  inversion N as [| ? ? Hnot N']; subst. rewrite filter_app.
  destruct I as [E | I].
  - subst entry.
    rewrite names_city_same
      by exact (city_messages_tagged requests_get to_datetime (city, coords)).
    rewrite names_city_other; [now rewrite app_nil_r|].
    apply Forall_forall. intros m Hm Eq.
    apply (messages_of_city_absent requests_get to_datetime capitals city Hnot).
    rewrite <- Eq. now apply in_map.
  - rewrite names_city_other.
    + simpl. now apply IH.
    + eapply Forall_impl; [|apply city_messages_tagged].
      intros m Em Eq. apply Hnot. rewrite <- Em, Eq.
      change city with (fst (city, coords)). now apply in_map.
Qed.

(** What a location that fails before the loop leaves behind. *)
Lemma request_failure_outcome city coords e :
  In (city, coords) kyushu_capitals ->
  request_series requests_get coords = inl e ->
  rows_of_city city
    (weather_info (fetch_weather_data requests_get to_datetime)) = [] /\
  filter (names_city city)
    (st_errors (fetch_weather_data requests_get to_datetime))
  = [ {| msg_city := city; msg_exn := e |} ].
Proof.
  intros I F. unfold fetch_weather_data.
  rewrite fetch_over_rows, fetch_over_messages.
  rewrite (rows_of_city_flat_map _ _ _ _ _ kyushu_capitals_NoDup I).
  rewrite (messages_naming_city _ _ _ kyushu_capitals_NoDup I).
  unfold city_rows, city_messages. simpl snd. simpl fst. now rewrite F.
Qed.

End MoreRetrieval.

(** A location is served by its own response only: two networks that give
    the same answer to the query of one configured location give that
    location the same rows and the same messages, whatever they answer to
    the six other queries. *)
Theorem location_depends_on_own_response
        (rg1 rg2 : string -> Params -> result Response)
        (to_datetime : json -> result datetime)
        (city : string) (coords : Coords.t) :
  In (city, coords) kyushu_capitals ->
  rg1 BASE_URL (params_of coords) = rg2 BASE_URL (params_of coords) ->
  rows_of_city city (weather_info (fetch_weather_data rg1 to_datetime))
  = rows_of_city city (weather_info (fetch_weather_data rg2 to_datetime)) /\
  filter (names_city city) (st_errors (fetch_weather_data rg1 to_datetime))
  = filter (names_city city) (st_errors (fetch_weather_data rg2 to_datetime)).
Proof.
  intros I E. unfold fetch_weather_data.
  rewrite !fetch_over_rows, !fetch_over_messages.
  rewrite !(rows_of_city_flat_map _ _ _ _ _ kyushu_capitals_NoDup I).
  rewrite !(messages_naming_city _ _ _ _ _ kyushu_capitals_NoDup I).
  unfold city_rows, city_messages. simpl snd.
  now rewrite (request_series_ext rg1 rg2 coords E).
Qed.

Lemma location_depends_on_own_response_witness :
  rows_of_city "Oita" (weather_info (fetch_weather_data net_grid pd_to_datetime))
  = rows_of_city "Oita"
      (weather_info (fetch_weather_data net_saga_503 pd_to_datetime)) /\
  filter (names_city "Oita")
         (st_errors (fetch_weather_data net_grid pd_to_datetime))
  = filter (names_city "Oita")
           (st_errors (fetch_weather_data net_saga_503 pd_to_datetime)).
Proof.
  apply (location_depends_on_own_response net_grid net_saga_503 pd_to_datetime
           "Oita" (Coords.make 33.2381 131.6119)).
  - simpl. tauto.
  - reflexivity.
Defined.

(** The retrieval sees the network through seven queries only: two
    networks that agree on the query built for each configured location
    (the fixed URL, the coordinates of the location, hourly temperature_2m,
    timezone Asia/Tokyo, past_days 1) give the same Dataset and the same
    messages. *)
Theorem fetch_uses_the_seven_queries_only
        (rg1 rg2 : string -> Params -> result Response)
        (to_datetime : json -> result datetime) :
  (forall city coords, In (city, coords) kyushu_capitals ->
     rg1 BASE_URL {| latitude := Coords.lat coords;
                     longitude := Coords.lon coords;
                     hourly := "temperature_2m";
                     timezone := "Asia/Tokyo";
                     past_days := 1 |}
     = rg2 BASE_URL {| latitude := Coords.lat coords;
                       longitude := Coords.lon coords;
                       hourly := "temperature_2m";
                       timezone := "Asia/Tokyo";
                       past_days := 1 |}) ->
  fetch_weather_data rg1 to_datetime = fetch_weather_data rg2 to_datetime.
Proof.
  intros A. unfold fetch_weather_data. rewrite !fetch_over_eq.
  assert (R : forall entry, In entry kyushu_capitals ->
            request_series rg1 (snd entry) = request_series rg2 (snd entry)).
  { intros [city coords] I. apply request_series_ext. exact (A city coords I). }
  f_equal.
  - apply flat_map_ext_In. intros entry I. unfold city_rows.
    now rewrite (R entry I).
  - apply flat_map_ext_In. intros entry I. unfold city_messages.
    now rewrite (R entry I).
Qed.

Lemma fetch_uses_the_seven_queries_only_witness :
  fetch_weather_data net_grid pd_to_datetime
  = fetch_weather_data
      (fun url p => if String.eqb (timezone p) "UTC"
                    then raise ConnectionError else net_grid url p)
      pd_to_datetime.
Proof.
  apply fetch_uses_the_seven_queries_only. intros city coords _. reflexivity.
Defined.

(** The Dataset is grouped by location in the order of the table: it is
    the rows of Fukuoka, then those of Saga, and so on to Kagoshima, so the
    rows of one location are never interleaved with those of another,
    whatever the network answered. *)
Theorem dataset_is_grouped_by_location
        (requests_get : string -> Params -> result Response)
        (to_datetime : json -> result datetime) :
  let df := weather_info (fetch_weather_data requests_get to_datetime) in
  df = flat_map (fun entry => rows_of_city (fst entry) df) kyushu_capitals.
Proof.
  intros df. subst df. unfold fetch_weather_data. rewrite fetch_over_rows.
  apply flat_map_ext_In. intros [city coords] I. simpl fst. symmetry.
  apply (rows_of_city_flat_map _ _ _ _ _ kyushu_capitals_NoDup I).
Qed.

Lemma NoDup_flat_map_names {A : Type} (f : A -> list string)
      (key : A -> string) (l : list A) :
  NoDup (map key l) ->
  (forall a, In a l -> f a = [] \/ f a = [key a]) ->
  NoDup (flat_map f l).
Proof.
  induction l as [| a l IH]; simpl; intros N H; [constructor|].
  inversion N as [| ? ? Hnot N']; subst.
  assert (T : NoDup (flat_map f l)) by (apply IH; auto).
  destruct (H a (or_introl eq_refl)) as [E | E]; rewrite E; simpl; trivial.
  constructor; trivial.
  intros Hin. apply in_flat_map in Hin. destruct Hin as (b & Ib & Hb).
  destruct (H b (or_intror Ib)) as [Eb | Eb]; rewrite Eb in Hb;
    simpl in Hb; [contradiction|].
  destruct Hb as [Hb | []]. apply Hnot. rewrite <- Hb. now apply in_map.
Qed.

(** At most one message per location: the messages shown by one retrieval
    name configured locations only, no location twice, so there are never
    more than seven. *)
Theorem one_message_per_location
        (requests_get : string -> Params -> result Response)
        (to_datetime : json -> result datetime) :
  let cities := map msg_city
                    (st_errors (fetch_weather_data requests_get to_datetime)) in
  NoDup cities /\
  (forall city, In city cities -> In city (map fst kyushu_capitals)) /\
  (length cities <= 7)%nat.
Proof.
  intros cities. subst cities. unfold fetch_weather_data.
  rewrite fetch_over_messages.
  assert (Shape : forall entry,
             map msg_city (city_messages requests_get to_datetime entry) = [] \/
             map msg_city (city_messages requests_get to_datetime entry)
             = [fst entry]).
  { intros entry. unfold city_messages.
    destruct (request_series requests_get (snd entry)); simpl; auto.
    destruct (snd (append_rows _ _ _ _ _)); simpl; auto. }
  assert (E : forall l,
             map msg_city (flat_map (city_messages requests_get to_datetime) l)
             = flat_map (fun entry =>
                  map msg_city (city_messages requests_get to_datetime entry)) l).
  { induction l as [| a l IH]; simpl; trivial. now rewrite map_app, IH. }
  rewrite E.
  assert (N : NoDup (flat_map (fun entry =>
                 map msg_city (city_messages requests_get to_datetime entry))
                 kyushu_capitals)).
  { apply (NoDup_flat_map_names _ fst); [apply kyushu_capitals_NoDup|].
    intros a _. apply Shape. }
  assert (I : forall city,
             In city (flat_map (fun entry =>
                 map msg_city (city_messages requests_get to_datetime entry))
                 kyushu_capitals) -> In city (map fst kyushu_capitals)).
  { intros city Hc. apply in_flat_map in Hc. destruct Hc as (a & Ia & Ha).
    destruct (Shape a) as [S | S]; rewrite S in Ha; simpl in Ha;
      [contradiction|].
    destruct Ha as [<- | []]. now apply in_map. }
  split; [exact N|]. split; [exact I|].
  change 7%nat with (length (map fst kyushu_capitals)).
  apply NoDup_incl_length; [exact N | exact I].
Qed.

Section Prefix.

Variable to_datetime : json -> result datetime.
Variables (city : string) (coords : Coords.t).

(** The loop over the pairs keeps what it read before the first timestamp
    it cannot read, and nothing after it. *)
Lemma append_rows_prefix (times temps : list json) :
  exists k,
    (k <= Nat.min (length times) (length temps))%nat /\
    map Temperature
        (fst (append_rows to_datetime city coords (combine times temps) []))
    = firstn k temps /\
    Forall2 (fun t r => to_datetime t = inr (time r)) (firstn k times)
            (fst (append_rows to_datetime city coords (combine times temps) [])) /\
    ((k = Nat.min (length times) (length temps) /\
      snd (append_rows to_datetime city coords (combine times temps) []) = None)
     \/
     (exists t e,
         (k < Nat.min (length times) (length temps))%nat /\
         nth_error times k = Some t /\ to_datetime t = inl e /\
         snd (append_rows to_datetime city coords (combine times temps) [])
         = Some e)).
Proof.
  revert temps. induction times as [| t times IH]; intros temps.
  - exists 0%nat. simpl. split; [lia|]. split; [reflexivity|].
    split; [constructor|]. left. split; reflexivity.
  - destruct temps as [| temp temps].
    + exists 0%nat. simpl. split; [lia|]. split; [reflexivity|].
      split; [constructor|]. left. split; reflexivity.
    + simpl combine. simpl append_rows.
      destruct (to_datetime t) as [e | d] eqn:Et.
      * exists 0%nat. simpl. split; [lia|]. split; [reflexivity|].
        split; [constructor|]. right. exists t, e.
        repeat split; trivial. lia.
      * rewrite append_rows_app. simpl fst. simpl snd.
        destruct (IH temps) as (k & Hk & HT & HF & HS).
        exists (S k). simpl. split; [lia|]. split; [now rewrite HT|].
        split; [constructor; [exact Et | exact HF]|].
        destruct HS as [[Hm Hn] | (t' & e & Hlt & Hnth & Ht' & Hs)].
        -- left. split; [now rewrite Hm | exact Hn].
        -- right. exists t', e. repeat split; trivial. lia.
Qed.

End Prefix.

(** What a location contributes when its response is well formed but some
    timestamp may be unreadable: the rows of the pairs before the first
    timestamp that [pd.to_datetime] refuses, in order, and nothing after
    it. Either every pair was read and no message names the location, or
    the loop stopped at pair [k], the rows of the first [k] pairs stay in
    the Dataset and a message carries the exception of that timestamp. *)
Theorem rows_stop_at_first_unreadable_timestamp
        (requests_get : string -> Params -> result Response)
        (to_datetime : json -> result datetime)
        (city : string) (coords : Coords.t) (response : Response)
        (times temps : list json) :
  In (city, coords) kyushu_capitals ->
  requests_get BASE_URL (params_of coords) = inr response ->
  hourly_series response times temps ->
  let st := fetch_weather_data requests_get to_datetime in
  let rows := rows_of_city city (weather_info st) in
  let n := Nat.min (length times) (length temps) in
  exists k,
    (k <= n)%nat /\
    map Temperature rows = firstn k temps /\
    Forall2 (fun t r => to_datetime t = inr (time r)) (firstn k times) rows /\
    ((k = n /\ filter (names_city city) (st_errors st) = []) \/
     (exists t e,
         (k < n)%nat /\ nth_error times k = Some t /\
         to_datetime t = inl e /\
         filter (names_city city) (st_errors st)
         = [ {| msg_city := city; msg_exn := e |} ])).
Proof.
  intros I G S st rows n. subst st rows n. unfold fetch_weather_data.
  rewrite fetch_over_rows, fetch_over_messages.
  rewrite (rows_of_city_flat_map _ _ _ _ _ kyushu_capitals_NoDup I).
  rewrite (messages_naming_city _ _ _ _ _ kyushu_capitals_NoDup I).
  unfold city_rows, city_messages. simpl fst. simpl snd.
  rewrite (request_series_ok _ _ _ _ _ G S).
  destruct (append_rows_prefix to_datetime city coords times temps)
    as (k & Hk & HT & HF & HS).
  exists k. split; [exact Hk|]. split; [exact HT|]. split; [exact HF|].
  destruct HS as [[Hm Hn] | (t & e & Hlt & Hnth & Ht & Hs)].
  - left. split; [exact Hm|]. now rewrite Hn.
  - right. exists t, e. repeat split; trivial. now rewrite Hs.
Qed.

Lemma rows_stop_at_first_unreadable_timestamp_witness :
  let st := fetch_weather_data net_bad_stamp pd_to_datetime in
  let rows := rows_of_city "Fukuoka" (weather_info st) in
  exists k,
    (k <= 2)%nat /\
    map Temperature rows = firstn k [JNum 8.4; JNum 7.9] /\
    Forall2 (fun t r => pd_to_datetime t = inr (time r))
            (firstn k [JStr T0; JStr "bogus"]) rows /\
    ((k = 2%nat /\ filter (names_city "Fukuoka") (st_errors st) = []) \/
     (exists t e,
         (k < 2)%nat /\ nth_error [JStr T0; JStr "bogus"] k = Some t /\
         pd_to_datetime t = inl e /\
         filter (names_city "Fukuoka") (st_errors st)
         = [ {| msg_city := "Fukuoka"; msg_exn := e |} ])).
Proof.
  apply (rows_stop_at_first_unreadable_timestamp net_bad_stamp pd_to_datetime
           "Fukuoka" (Coords.make 33.5904 130.4017)
           {| status_code := 200;
              payload := Some (api_body [JStr T0; JStr "bogus"]
                                        [JNum 8.4; JNum 7.9]) |}
           [JStr T0; JStr "bogus"] [JNum 8.4; JNum 7.9]).
  - simpl. tauto.
  - reflexivity.
  - split; [reflexivity|]. eexists. eexists.
    split; [reflexivity|]. split; [reflexivity|]. split; reflexivity.
Defined.

(* ================================================================== *)
(** ** Failures before the loop, by kind *)

(** The three ways the transport can fail are each reported under their
    own exception and add no row: an exception of [requests.get] is shown
    as it is; a 4xx or 5xx status is shown as an HTTP error with that
    status, whatever the body holds; a body that is not JSON is shown as a
    decoding error. In each case the message is the only one naming the
    location. *)
Theorem transport_failures_are_reported
        (requests_get : string -> Params -> result Response)
        (to_datetime : json -> result datetime)
        (city : string) (coords : Coords.t) :
  In (city, coords) kyushu_capitals ->
  let st := fetch_weather_data requests_get to_datetime in
  let reported e :=
    rows_of_city city (weather_info st) = [] /\
    filter (names_city city) (st_errors st)
    = [ {| msg_city := city; msg_exn := e |} ] in
  (forall e, requests_get BASE_URL (params_of coords) = inl e -> reported e) /\
  (forall response,
      requests_get BASE_URL (params_of coords) = inr response ->
      (400 <= status_code response < 600)%Z ->
      reported (HTTPError (status_code response))) /\
  (forall response,
      requests_get BASE_URL (params_of coords) = inr response ->
      ~ (400 <= status_code response < 600)%Z ->
      payload response = None ->
      reported JSONDecodeError).
Proof.
  intros I st reported. subst st reported. cbv beta.
  split; [|split].
  - intros e G. apply (request_failure_outcome requests_get to_datetime city coords);
      trivial.
    unfold request_series. simpl. now rewrite G.
  - intros response G [Lo Hi]. apply (request_failure_outcome requests_get to_datetime city coords);
      trivial.
    unfold request_series. simpl. rewrite G. simpl.
    unfold raise_for_status.
    apply Z.leb_le in Lo. apply Z.ltb_lt in Hi. now rewrite Lo, Hi.
  - intros response G Ns P. apply (request_failure_outcome requests_get to_datetime city coords);
      trivial.
    unfold request_series. simpl. rewrite G. simpl.
    unfold raise_for_status.
    destruct ((400 <=? status_code response) && (status_code response <? 600))%Z
      eqn:B.
    + apply andb_true_iff in B. destruct B as [Lo Hi].
      apply Z.leb_le in Lo. apply Z.ltb_lt in Hi. elim Ns. lia.
    + simpl. unfold response_json. now rewrite P.
Qed.

Lemma transport_failures_are_reported_witness :
  let st := fetch_weather_data net_saga_503 pd_to_datetime in
  rows_of_city "Saga" (weather_info st) = [] /\
  filter (names_city "Saga") (st_errors st)
  = [ {| msg_city := "Saga"; msg_exn := HTTPError 503 |} ].
Proof.
  destruct (transport_failures_are_reported net_saga_503 pd_to_datetime
              "Saga" (Coords.make 33.2494 130.2974)) as (_ & H & _).
  - simpl. tauto.
  - apply (H {| status_code := 503; payload := None |}).
    + reflexivity.
    + simpl. lia.
Defined.

(** A JSON body of the wrong shape is reported by the first thing that is
    wrong with it and adds no row: a body that is not an object as a type
    error; an object without [hourly] as a missing key [hourly]; an
    [hourly] object without [time] as a missing key [time], also when
    [temperature_2m] is missing too; one with [time] but without
    [temperature_2m] as a missing key [temperature_2m]. *)
Theorem malformed_bodies_are_reported
        (requests_get : string -> Params -> result Response)
        (to_datetime : json -> result datetime)
        (city : string) (coords : Coords.t)
        (response : Response) (data : json) :
  In (city, coords) kyushu_capitals ->
  requests_get BASE_URL (params_of coords) = inr response ->
  raise_for_status response = ret tt ->
  payload response = Some data ->
  let st := fetch_weather_data requests_get to_datetime in
  let reported e :=
    rows_of_city city (weather_info st) = [] /\
    filter (names_city city) (st_errors st)
    = [ {| msg_city := city; msg_exn := e |} ] in
  (match data with JObj _ => False | _ => True end -> reported TypeError) /\
  (forall members,
      data = JObj members -> dict_get members "hourly" = None ->
      reported (KeyError "hourly")) /\
  (forall members hm,
      data = JObj members -> dict_get members "hourly" = Some (JObj hm) ->
      dict_get hm "time" = None ->
      reported (KeyError "time")) /\
  (forall members hm times,
      data = JObj members -> dict_get members "hourly" = Some (JObj hm) ->
      dict_get hm "time" = Some times ->
      dict_get hm "temperature_2m" = None ->
      reported (KeyError "temperature_2m")).
Proof.
  intros I G S P st reported. subst st reported. cbv beta.
  assert (U : request_series requests_get coords
              = (let* h1 := py_getitem data "hourly" in
                 let* times := py_getitem h1 "time" in
                 let* h2 := py_getitem data "hourly" in
                 let* temps := py_getitem h2 "temperature_2m" in
                 py_zip times temps)).
  { unfold request_series. simpl. rewrite G. simpl. rewrite S. simpl.
    unfold response_json. now rewrite P. }
  split; [|split; [|split]].
  - intros Shape. apply (request_failure_outcome requests_get to_datetime city coords);
      trivial.
    rewrite U. destruct data; simpl; trivial. contradiction.
  - intros members -> M. apply (request_failure_outcome requests_get to_datetime city coords);
      trivial.
    rewrite U. simpl. now rewrite M.
  - intros members hm -> M T. apply (request_failure_outcome requests_get to_datetime city coords);
      trivial.
    rewrite U. simpl. rewrite M. simpl. now rewrite T.
  - intros members hm times -> M T V. apply (request_failure_outcome requests_get to_datetime city coords);
      trivial.
    rewrite U. simpl. rewrite M. simpl. rewrite T. simpl. now rewrite V.
Qed.

Lemma malformed_bodies_are_reported_witness :
  let rg := fun (url : string) (p : Params) =>
              ret {| status_code := 200;
                     payload := Some (JObj [("hourly"%string,
                                             JObj [("temperature_2m"%string,
                                                    JArr [JNum 8.4])])]) |} in
  let st := fetch_weather_data rg pd_to_datetime in
  rows_of_city "Miyazaki" (weather_info st) = [] /\
  filter (names_city "Miyazaki") (st_errors st)
  = [ {| msg_city := "Miyazaki"; msg_exn := KeyError "time" |} ].
Proof.
  intros rg st. subst st.
  destruct (malformed_bodies_are_reported rg pd_to_datetime
              "Miyazaki" (Coords.make 31.9110 131.4240)
              {| status_code := 200;
                 payload := Some (JObj [("hourly"%string,
                                         JObj [("temperature_2m"%string,
                                                JArr [JNum 8.4])])]) |}
              (JObj [("hourly"%string,
                      JObj [("temperature_2m"%string, JArr [JNum 8.4])])]))
    as (_ & _ & H & _).
  - simpl. tauto.
  - reflexivity.
  - reflexivity.
  - reflexivity.
  - apply (H [("hourly"%string,
               JObj [("temperature_2m"%string, JArr [JNum 8.4])])]
             [("temperature_2m"%string, JArr [JNum 8.4])]); reflexivity.
Defined.

(* ================================================================== *)
(** ** From the network to what is drawn *)

Lemma script_inv (st_slider : datetime -> datetime -> datetime -> result Z)
      (df : DataFrame) (selected : list VRow) :
  script st_slider df = inr selected ->
  exists V selected_time,
    derive df = inr V /\
    st_slider (series_min (map time df)) (series_max (map time df))
              (series_min (map time df)) = inr selected_time /\
    selected = df_selected V selected_time.
Proof.
  unfold script, getitem_time. intros H.
  destruct (derive df) as [e | V] eqn:D; simpl in H; [discriminate|].
  destruct (has_column df "time"); simpl in H; [|discriminate].
  destruct (st_slider _ _ _) as [e | z] eqn:S; simpl in H; [discriminate|].
  inversion H. eauto.
Qed.

Lemma row_is_configured
      (requests_get : string -> Params -> result Response)
      (to_datetime : json -> result datetime) (r : Row) :
  In r (weather_info (fetch_weather_data requests_get to_datetime)) ->
  In (City r, Coords.make (lat r) (lon r)) kyushu_capitals.
Proof.
  unfold fetch_weather_data. rewrite fetch_over_rows. intros Hr.
  apply in_flat_map in Hr. destruct Hr as ([city coords] & He & Hr).
  pose proof (city_rows_tagged requests_get to_datetime (city, coords)) as T.
  rewrite Forall_forall in T. destruct (T r Hr) as (C & La & Lo).
  simpl in C, La, Lo. rewrite C, La, Lo. now destruct coords.
Qed.

(** Whatever the network answers and whatever time the slider yields, when
    the script gets to the end, all rows shown have the one selected time
    and the table and the map agree row by row: the table row names a
    configured capital and holds a temperature that lines 72-73 could
    compute with; the column drawn for it stands at that capital's
    configured [[lon, lat]], points down exactly when the temperature is
    negative and up exactly when it is positive, and is filled with a
    colour whose red, green and blue are between 0 and 255 and whose alpha
    is 180. *)
Theorem table_and_map_agree
        (requests_get : string -> Params -> result Response)
        (to_datetime : json -> result datetime)
        (st_slider : datetime -> datetime -> datetime -> result Z)
        (selected : list VRow) :
  script st_slider (weather_info (fetch_weather_data requests_get to_datetime))
  = inr selected ->
  (exists t, Forall (fun v => time (sample v) = Timestamp t) selected) /\
  Forall2 (fun row g =>
             exists coords temp r gr b,
               In (fst row, coords) kyushu_capitals /\
               position g = [Coords.lon coords; Coords.lat coords] /\
               as_float (snd row) = inr temp /\
               (temp < 0 <-> height g < 0) /\
               (0 < temp <-> 0 < height g) /\
               fill_color g = [r; gr; b; 180]%Z /\
               (0 <= r <= 255)%Z /\ (0 <= gr <= 255)%Z /\ (0 <= b <= 255)%Z)
          (table_view selected) (column_layer selected).
Proof.
  intros H. apply script_inv in H. destruct H as (V & t & D & _ & ->).
  destruct (derive_cells _ _ D) as [Sm F]. rewrite Forall_forall in F.
  assert (Sub : forall v, In v (df_selected V t) ->
                          In v V /\ time (sample v) = Timestamp t).
  { intros v Hv. unfold df_selected in Hv.
    now apply (select_time_In (fun v => time (sample v))) in Hv. }
  split.
  - exists t. apply Forall_forall. intros v Hv. now apply Sub.
  - unfold table_view, column_layer.
    induction (df_selected V t) as [| v l IH]; simpl; constructor.
    + destruct (Sub v (or_introl eq_refl)) as [Iv _].
      destruct (F v Iv) as (q & Tq & Eq & Cq).
      destruct (colour_is_rgba q) as (r & gr & b & Ec & Br & Bg & Bb).
      exists (Coords.make (lat (sample v)) (lon (sample v))), q, r, gr, b.
      simpl. split.
      { apply (row_is_configured requests_get to_datetime).
        rewrite <- Sm. now apply in_map. }
      split; [reflexivity|]. split; [exact Tq|].
      rewrite Eq, Cq. unfold elevation.
      split; [split; intros H'; lra|].
      split; [split; intros H'; lra|].
      split; [exact Ec|]. auto.
    + apply IH. intros v' Hv'. apply Sub. now right.
Qed.

Lemma table_and_map_agree_witness :
  (exists t, Forall (fun v => time (sample v) = Timestamp t)
                    (df_selected grid_frame ns_T0)) /\
  Forall2 (fun row g =>
             exists coords temp r gr b,
               In (fst row, coords) kyushu_capitals /\
               position g = [Coords.lon coords; Coords.lat coords] /\
               as_float (snd row) = inr temp /\
               (temp < 0 <-> height g < 0) /\
               (0 < temp <-> 0 < height g) /\
               fill_color g = [r; gr; b; 180]%Z /\
               (0 <= r <= 255)%Z /\ (0 <= gr <= 255)%Z /\ (0 <= b <= 255)%Z)
          (table_view (df_selected grid_frame ns_T0))
          (column_layer (df_selected grid_frame ns_T0)).
Proof.
  apply (table_and_map_agree net_grid pd_to_datetime slider_default).
  reflexivity.
Defined.

(* ================================================================== *)
(** ** Messages and failures *)

Lemma append_rows_no_exception (to_datetime : json -> result datetime)
      city coords pairs :
  snd (append_rows to_datetime city coords pairs []) = None <->
  exists stamps, Forall2 (fun p d => to_datetime (fst p) = inr d) pairs stamps.
Proof.
  induction pairs as [| [t temp] pairs IH]; simpl.
  - split; [intros _; exists []; constructor | trivial].
  - destruct (to_datetime t) as [e | d] eqn:Et; simpl.
    + split; [discriminate|]. intros (stamps & F). inversion F; subst.
      simpl in *. congruence.
    + rewrite append_rows_app. simpl snd. rewrite IH. split.
      * intros (stamps & F). exists (d :: stamps). now constructor.
      * intros (stamps & F). inversion F; subst. eauto.
Qed.

(** A message is shown exactly when something failed: the retrieval ends
    without any message if and only if, for every configured location, the
    request, the status check, the decoding, the member lookups and the zip
    raised nothing and every paired timestamp was read. *)
Theorem no_message_iff_all_read
        (requests_get : string -> Params -> result Response)
        (to_datetime : json -> result datetime) :
  st_errors (fetch_weather_data requests_get to_datetime) = [] <->
  (forall city coords, In (city, coords) kyushu_capitals ->
                       read_in_full requests_get to_datetime coords).
Proof.
  unfold fetch_weather_data. rewrite fetch_over_messages.
  assert (One : forall entry,
             city_messages requests_get to_datetime entry = [] <->
             read_in_full requests_get to_datetime (snd entry)).
  { intros [city coords]. unfold city_messages, read_in_full. simpl fst.
    simpl snd.
    destruct (request_series requests_get coords) as [e | pairs].
    - split; [discriminate|]. intros (p & s & E & _). discriminate.
    - destruct (snd (append_rows to_datetime city coords pairs [])) as [e|] eqn:S.
      + split; [discriminate|]. intros (p & s & E & F).
        inversion E; subst p.
        assert (N : snd (append_rows to_datetime city coords pairs []) = None)
          by (apply (proj2 (append_rows_no_exception to_datetime city coords
                               pairs)); eauto).
        congruence.
      + split; [|trivial]. intros _.
        apply (proj1 (append_rows_no_exception to_datetime city coords pairs))
          in S. destruct S as (stamps & F).
        eauto. }
  generalize kyushu_capitals as capitals.
  induction capitals as [| entry capitals IH]; simpl.
  - split; [intros _ ? ? [] | trivial].
  - split.
    + intros E. apply app_eq_nil in E. destruct E as [E1 E2].
      intros city coords [Eq | I].
      * subst entry. now apply (One (city, coords)).
      * exact (proj1 IH E2 city coords I).
    + intros A.
      rewrite (proj2 (One entry)).
      * simpl. apply IH. intros city coords I. apply (A city coords).
        now right.
      * destruct entry as [city coords]. apply (A city coords). now left.
Qed.

Lemma no_message_iff_all_read_witness :
  st_errors (fetch_weather_data net_grid pd_to_datetime) = [] /\
  ~ (forall city coords, In (city, coords) kyushu_capitals ->
                         read_in_full net_bad_stamp pd_to_datetime coords).
Proof.
  split.
  - apply (proj2 (no_message_iff_all_read net_grid pd_to_datetime)).
    intros city coords _.
    exists (combine [JStr T0; JStr T1] [JNum 8.4; JNum 7.9]).
    exists [Timestamp ns_T0; Timestamp ns_T1].
    split; [reflexivity | repeat constructor].
  - intros A.
    apply (proj2 (no_message_iff_all_read net_bad_stamp pd_to_datetime)) in A.
    discriminate A.
Defined.
